(** * mn-ndnd: a five-node NDN emulation driver, embedded and verified

    Shallow embedding of [scripts/mn-ndnd.py].  The script builds a fixed
    Mininet topology (g1 -- s1 -- s2 -- s3 -- g2 plus two alternate access
    links), starts one [ndnd] daemon per node, waits for the daemons'
    control sockets, creates the DV neighbour links and optionally performs
    one scripted handover.

    Conventions of the embedding:
    - Python [int] is [Z]; a Python [float] that the script only compares,
      adds or passes on is a rational [Q] (seconds for times);
    - a call that may raise returns a [result]; code that mutates the
      script's variables, the substrate, the file system or the clock is a
      function [world -> result A * world];
    - a [dict] used for keyword arguments is a [gmap]; a [dict] or list
      whose iteration order the script relies on is a list;
    - the Mininet substrate, the file system and the daemon processes are
      external: the [world] records what the script asked of them, and the
      behaviour of each daemon process is carried by its handle. *)

From Stdlib Require Import ZArith QArith Lqa String Ascii DecimalString DecimalZ.
From stdpp Require Import gmap strings list.

Open Scope Z_scope.
Open Scope string_scope.

(** ** Python values and call results *)

Module Py.

(** The exception classes the script raises or handles. *)
Inductive exn : Type :=
| FileNotFoundError (msg : string)
| PermissionError (msg : string)
| ValueError (msg : string)
| IsADirectoryError (path : string)
| FileExistsError (path : string)
| TimeoutExpired
| ProcessLookupError
| KeyError (key : string)
| KeyboardInterrupt
| MininetError.

(** [except Exception] does not catch [KeyboardInterrupt]. *)
Definition is_Exception (e : exn) : bool :=
  match e with
  | KeyboardInterrupt => false
  | _ => true
  end.

Inductive result (A : Type) : Type :=
| Ok (a : A)
| Raise (e : exn).
Arguments Ok {A} a.
Arguments Raise {A} e.

Definition fails {A} (r : result A) : Prop := exists e, r = Raise e.

(** A number as argparse hands it over: [type=float] converts command
    line text, an [int] default stays an [int]. *)
Inductive num : Type :=
| PyInt (z : Z)
| PyFloat (q : Q).

(** Values stored in a keyword dictionary. *)
Inductive val : Type :=
| VNum (n : num)
| VInt (z : Z)
| VStr (s : string)
| VBool (b : bool).

(** [str(z)] for an [int], as an f-string renders it. *)
Definition str_int (z : Z) : string := NilEmpty.string_of_int (Z.to_int z).

(** Truth value of a [str | None] in [if x:]. *)
Definition truthy (o : option string) : bool :=
  match o with
  | Some s => negb (String.eqb s EmptyString)
  | None => false
  end.

(** The double quote character, for the shell command lines. *)
Definition dq : string := String "034"%char EmptyString.

End Py.
Import Py.

(** ** Subnet allocation: [_alloc_p2p_subnet] *)

(** The two octets the function computes; [//] and [%] are floor division
    and the matching remainder, as [Z.div] and [Z.modulo] are for a positive
    divisor. *)
Definition octet3 (index : Z) : Z := index `div` 64.
Definition octet4 (index : Z) : Z := (index `mod` 64) * 4.

(** [f"10.0.{third}.{x}"] *)
Definition dotted (t x : Z) : string :=
  "10.0." +:+ str_int t +:+ "." +:+ str_int x.

Definition _alloc_p2p_subnet (index : Z) : result (string * string * string) :=
  let third := octet3 index in
  let fourth := octet4 index in
  let base := dotted third fourth in
  let ip1 := dotted third (fourth + 1) in
  let ip2 := dotted third (fourth + 2) in
  let cidr := base +:+ "/30" in
  Ok (cidr, ip1, ip2).

(** The addresses of the /30 block that [_alloc_p2p_subnet index] names:
    the base address and the three that follow it in the last octet. *)
Definition block_addresses (index : Z) : list string :=
  map (fun k => dotted (octet3 index) (octet4 index + k)) [0; 1; 2; 3].

(** The same block as a number: the address [a.b.c.d] read in base 256. *)
Definition block_base (index : Z) : Z :=
  ((10 * 256 + 0) * 256 + octet3 index) * 256 + octet4 index.

(** Capacity of the space [10.0.0.0/16] in /30 blocks. *)
Definition capacity : Z := 16384.

(** ** Link options: [_tc_link_kwargs] *)

Definition _tc_link_kwargs (bw : option num) (delay jitter : option string)
    (loss : option num) (queue : option Z) : result (gmap string val) :=
  let kwargs : gmap string val := ∅ in
  let kwargs :=
    match bw with
    | Some x => <["use_htb" := VBool true]> (<["bw" := VNum x]> kwargs)
    | None => kwargs
    end in
  let kwargs :=
    if truthy delay then
      match delay with Some d => <["delay" := VStr d]> kwargs | None => kwargs end
    else kwargs in
  let kwargs :=
    if truthy jitter then
      match jitter with Some j => <["jitter" := VStr j]> kwargs | None => kwargs end
    else kwargs in
  let kwargs :=
    match loss with
    | Some x => <["loss" := VNum x]> kwargs
    | None => kwargs
    end in
  let kwargs :=
    match queue with
    | Some n => <["max_queue_size" := VInt n]> kwargs
    | None => kwargs
    end in
  Ok kwargs.

(** ** The world the script acts on *)

Inductive status : Type := up | down.

Global Instance status_eq_dec : EqDecision status.
Proof. solve_decision. Defined.

(** What sits at a path.  File contents are kept as the values they are
    generated from; the templates themselves are plain text. *)
Inductive fobj : Type :=
| Dir
| Socket
| Regular
| Log
| Conf (sock_path router network : string) (udp_port : Z)
| Wrapper (ndnd_bin state_dir : string) (executable : bool).

(** A link of the substrate ([TCLink]) with the options it was created
    with and the status of its interfaces. *)
Record tclink : Type := mkLink {
  l_node1 : string;
  l_node2 : string;
  l_ip1 : string;
  l_ip2 : string;
  l_opts : gmap string val;
  l_status : status
}.

Record mininet : Type := mkNet {
  hosts : list string;
  tclinks : list tclink;
  started : bool;
  stop_calls : nat
}.

(** One entry of the script's [links] list; [lk_link] is the handle of the
    substrate link, its position in [tclinks]. *)
Record link_rec : Type := mkRec {
  lk_a : string;
  lk_b : string;
  lk_a_ip : string;
  lk_b_ip : string;
  lk_cidr : string;
  lk_kind : string;
  lk_link : nat
}.

(** How a daemon process answers the three calls [cleanup] makes on its
    handle, and whether it removes its control socket when it exits on
    SIGTERM.  A killed process removes nothing. *)
Record behaviour : Type := mkBeh {
  term_raises : bool;
  exits_in_time : bool;
  kill_raises : bool;
  tidy : bool
}.

Record popen : Type := mkProc {
  p_cmd : string;
  p_sock : string;
  p_beh : behaviour
}.

Inductive procop : Type :=
| SIGTERM
| WaitFor (timeout : Q)
| SIGKILL.

Inductive logmsg : Type :=
| WarnNotReady (missing : list string)
| InfoHandover (after : Q)
| InfoRunning
| InfoStateDir (state_dir : string)
| InfoUsage (wrapper_path : string)
| InfoExamplePut (wrapper_path : string)
| InfoExampleCat (wrapper_path : string)
| InfoSkippingCli.

Record world : Type := mkWorld {
  fs : gmap string fobj;          (* the file system: what exists where *)
  ticks : nat;                    (* sleeps taken so far *)
  clock : Q;                      (* [time.time()], in seconds *)
  net : mininet;                  (* the substrate *)
  links : list link_rec;          (* the script's [links] *)
  subnet_idx : Z;                 (* the script's [subnet_idx] *)
  procs : list (string * popen);  (* the script's [procs], in insertion order *)
  cmds : list (string * string);  (* [node.cmd(...)] calls, oldest first *)
  procops : list (string * procop); (* calls on process handles, oldest first *)
  logs : list logmsg              (* [info] and [warn] lines, oldest first *)
}.

Definition set_fs (f : gmap string fobj -> gmap string fobj) (w : world) : world :=
  mkWorld (f (fs w)) (ticks w) (clock w) (net w) (links w) (subnet_idx w)
          (procs w) (cmds w) (procops w) (logs w).
Definition set_time (t : nat) (c : Q) (w : world) : world :=
  mkWorld (fs w) t c (net w) (links w) (subnet_idx w)
          (procs w) (cmds w) (procops w) (logs w).
Definition set_net (f : mininet -> mininet) (w : world) : world :=
  mkWorld (fs w) (ticks w) (clock w) (f (net w)) (links w) (subnet_idx w)
          (procs w) (cmds w) (procops w) (logs w).
Definition set_links (f : list link_rec -> list link_rec) (w : world) : world :=
  mkWorld (fs w) (ticks w) (clock w) (net w) (f (links w)) (subnet_idx w)
          (procs w) (cmds w) (procops w) (logs w).
Definition set_subnet_idx (i : Z) (w : world) : world :=
  mkWorld (fs w) (ticks w) (clock w) (net w) (links w) i
          (procs w) (cmds w) (procops w) (logs w).
Definition set_procs (f : list (string * popen) -> list (string * popen)) (w : world) : world :=
  mkWorld (fs w) (ticks w) (clock w) (net w) (links w) (subnet_idx w)
          (f (procs w)) (cmds w) (procops w) (logs w).
Definition add_cmd (node c : string) (w : world) : world :=
  mkWorld (fs w) (ticks w) (clock w) (net w) (links w) (subnet_idx w)
          (procs w) (cmds w ++ [(node, c)]) (procops w) (logs w).
Definition add_procop (name : string) (o : procop) (w : world) : world :=
  mkWorld (fs w) (ticks w) (clock w) (net w) (links w) (subnet_idx w)
          (procs w) (cmds w) (procops w ++ [(name, o)]) (logs w).
Definition add_log (m : logmsg) (w : world) : world :=
  mkWorld (fs w) (ticks w) (clock w) (net w) (links w) (subnet_idx w)
          (procs w) (cmds w) (procops w) (logs w ++ [m]).

(** What the script cannot see from inside: the effective user id, the
    result of [shutil.which("ndnd")], path normalisation, the directory of
    the script file, how each node's daemon behaves, what the daemons do to
    the file system during the script's [n]-th sleep, and whether the
    [n]-th [net.stop()] raises. *)
Record environment : Type := mkEnv {
  euid : Z;
  which_ndnd : option string;
  abspath : string -> string;
  script_dir : string;
  daemon : string -> behaviour;
  background : nat -> gmap string fobj -> gmap string fobj;
  stop_raises : nat -> bool
}.

(** ** Statements with effects *)

Definition M (A : Type) : Type := world -> result A * world.

Definition ret {A} (a : A) : M A := fun w => (Ok a, w).
Definition raise {A} (e : exn) : M A := fun w => (Raise e, w).
Definition lift {A} (r : result A) : M A := fun w => (r, w).
Definition gets {A} (f : world -> A) : M A := fun w => (Ok (f w), w).
Definition modify (f : world -> world) : M unit := fun w => (Ok tt, f w).

Definition bind {A B} (c : M A) (k : A -> M B) : M B :=
  fun w =>
    match c w with
    | (Ok a, w') => k a w'
    | (Raise e, w') => (Raise e, w')
    end.

Notation "'do' x <- c ; k" := (bind c (fun x => k))
  (at level 10, x name, c at level 100, k at level 200).
Notation "'do' ' p <- c ; k" := (bind c (fun x => let 'p := x in k))
  (at level 10, p pattern, c at level 100, k at level 200).
Notation "c ;; k" := (bind c (fun _ => k))
  (at level 100, k at level 200, right associativity).

(** [try: c  except <classes selected by handles>: h] *)
Definition try_except {A} (c : M A) (handles : exn -> bool) (h : M A) : M A :=
  fun w =>
    match c w with
    | (Ok a, w') => (Ok a, w')
    | (Raise e, w') => if handles e then h w' else (Raise e, w')
    end.

(** [try: c  finally: f] *)
Definition try_finally {A} (c : M A) (f : M unit) : M A :=
  fun w =>
    match c w with
    | (r, w') =>
        match f w' with
        | (Ok _, w'') => (r, w'')
        | (Raise e, w'') => (Raise e, w'')
        end
    end.

(** [for x in l: body(x)] *)
Fixpoint for_each {A} (l : list A) (body : A -> M unit) : M unit :=
  match l with
  | [] => ret tt
  | x :: l' => body x ;; for_each l' body
  end.

(** ** Paths and files *)

Definition isabs (p : string) : bool := String.prefix "/" p.

Fixpoint ends_with_slash (p : string) : bool :=
  match p with
  | EmptyString => false
  | String c EmptyString => Ascii.eqb c "/"
  | String _ p' => ends_with_slash p'
  end.

(** [os.path.join(a, b)] *)
Definition path_join (a b : string) : string :=
  if isabs b then b
  else if String.eqb a EmptyString || ends_with_slash a then a +:+ b
  else a +:+ "/" +:+ b.

(** [os.path.exists(p)] *)
Definition path_exists (p : string) : M bool :=
  gets (fun w => bool_decide (is_Some (fs w !! p))).

(** [os.unlink(p)] *)
Definition os_unlink (p : string) : M unit :=
  do o <- gets (fun w => fs w !! p);
  match o with
  | None => raise (FileNotFoundError p)
  | Some Dir => raise (IsADirectoryError p)
  | Some _ => modify (set_fs (delete p))
  end.

(** [os.makedirs(p, exist_ok=True)] *)
Definition os_makedirs (p : string) : M unit :=
  do o <- gets (fun w => fs w !! p);
  match o with
  | None => modify (set_fs (insert p Dir))
  | Some Dir => ret tt
  | Some _ => raise (FileExistsError p)
  end.

Definition _ensure_root (env : environment) : M unit :=
  if negb (Z.eqb (euid env) 0)
  then raise (PermissionError "Mininet requires root. Run with: sudo python3 scripts/mn-ndnd.py ...")
  else ret tt.

Definition _find_ndnd (env : environment) (explicit : option string)
    (repo_root : string) : M string :=
  if truthy explicit then
    let p := default EmptyString explicit in
    let p := if negb (isabs p) then abspath env p else p in
    do found <- path_exists p;
    if negb found then raise (FileNotFoundError ("--ndnd not found: " +:+ p))
    else ret p
  else
    let p := which_ndnd env in
    if truthy p then ret (default EmptyString p)
    else
      let p := path_join (path_join repo_root "ndnd") "ndnd" in
      do found <- path_exists p;
      if found then ret p
      else raise (FileNotFoundError
        "Cannot find ndnd binary. Build it with `make -C ndnd` or pass `--ndnd /path/to/ndnd`.").

(** [open(path, "w").write(...)] of the two generated files. *)
Definition _write_combined_conf (conf_path sock_path router network : string)
    (udp_port : Z) : M unit :=
  modify (set_fs (insert conf_path (Conf sock_path router network udp_port))).

Definition _write_host_wrapper (wrapper_path ndnd_bin state_dir : string) : M unit :=
  modify (set_fs (insert wrapper_path (Wrapper ndnd_bin state_dir false))) ;;
  (* os.chmod(wrapper_path, 0o755) *)
  modify (set_fs (insert wrapper_path (Wrapper ndnd_bin state_dir true))).

(** ** Command line arguments *)

Record arguments : Type := mkArgs {
  args_ndnd : option string;
  args_state_dir : string;
  args_network : string;
  args_udp_port : Z;
  args_cli : bool;
  args_access_bw : num;
  args_access_delay : string;
  args_access_jitter : string;
  args_access_loss : num;
  args_isl_bw : num;
  args_isl_delay : string;
  args_isl_jitter : string;
  args_isl_loss : num;
  args_queue : Z;
  args_handover_after : Q
}.

(** The defaults the parser declares. *)
Definition default_args : arguments :=
  mkArgs None "/tmp/ndn-mn" "/satnet" 6363 false
         (PyInt 20) "25ms" "2ms" (PyFloat 0.2)
         (PyInt 50) "8ms" "1ms" (PyFloat 0.05)
         200 0.

(** ** The substrate: the calls the script makes on [Mininet] *)

Definition Mininet : M unit :=
  modify (set_net (fun _ => mkNet [] [] false 0)).

Definition addHost (name : string) : M unit :=
  modify (set_net (fun n =>
    mkNet (hosts n ++ [name])%list (tclinks n) (started n) (stop_calls n))).

(** Interfaces of a new link are up. *)
Definition addLink (n1 n2 ip1 ip2 : string) (kw : gmap string val) : M nat :=
  do handle <- gets (fun w => length (tclinks (net w)));
  modify (set_net (fun n =>
    mkNet (hosts n) (tclinks n ++ [mkLink n1 n2 ip1 ip2 kw up])%list
          (started n) (stop_calls n))) ;;
  ret handle.

Definition net_start : M unit :=
  modify (set_net (fun n => mkNet (hosts n) (tclinks n) true (stop_calls n))).

(** [{a, b} == {x, y}] on Python sets. *)
Definition same_pair (a b x y : string) : bool :=
  bool_decide (({[a; b]} : gset string) = {[x; y]}).

Definition connects (l : tclink) (src dst : string) : bool :=
  (String.eqb (l_node1 l) src && String.eqb (l_node2 l) dst)
  || (String.eqb (l_node1 l) dst && String.eqb (l_node2 l) src).

Definition with_status (st : status) (l : tclink) : tclink :=
  mkLink (l_node1 l) (l_node2 l) (l_ip1 l) (l_ip2 l) (l_opts l) st.

(** [net.configLinkStatus(src, dst, status)]: every connection between
    the two nodes takes the status; unknown or unconnected nodes are only
    reported. *)
Definition configLinkStatus (src dst : string) (st : status) : M unit :=
  modify (set_net (fun n =>
    mkNet (hosts n)
          (map (fun l => if connects l src dst then with_status st l else l)
               (tclinks n))
          (started n) (stop_calls n))).

Definition net_stop (env : environment) : M unit :=
  do k <- gets (fun w => stop_calls (net w));
  modify (set_net (fun n => mkNet (hosts n) (tclinks n) false (S (stop_calls n)))) ;;
  if stop_raises env k then raise MininetError else ret tt.

(** ** TopologyBuilder *)

Definition node_names : list string := ["g1"; "g2"; "s1"; "s2"; "s3"].

(** [nodes[name]] *)
Definition nodes_get (name : string) : M string :=
  if bool_decide (name ∈ node_names) then ret name else raise (KeyError name).

Definition add_p2p (args : arguments) (a b kind : string) : M unit :=
  do idx <- gets subnet_idx;
  do '(cidr, a_ip, b_ip) <- lift (_alloc_p2p_subnet idx);
  modify (set_subnet_idx (idx + 1)) ;;
  do kw <-
    (if String.eqb kind "access" then
       lift (_tc_link_kwargs (Some (args_access_bw args))
                             (Some (args_access_delay args))
                             (Some (args_access_jitter args))
                             (Some (args_access_loss args))
                             (Some (args_queue args)))
     else if String.eqb kind "isl" then
       lift (_tc_link_kwargs (Some (args_isl_bw args))
                             (Some (args_isl_delay args))
                             (Some (args_isl_jitter args))
                             (Some (args_isl_loss args))
                             (Some (args_queue args)))
     else raise (ValueError ("unknown link kind: " +:+ kind)));
  do na <- nodes_get a;
  do nb <- nodes_get b;
  do link <- addLink na nb (a_ip +:+ "/30") (b_ip +:+ "/30") kw;
  modify (set_links (fun ls => (ls ++ [mkRec a b a_ip b_ip cidr kind link])%list)).

(** Lines 177 to 243 of [main]: the nodes, the six links, the steady-state
    default and the empty process table. *)
Definition build_topology (args : arguments) : M unit :=
  Mininet ;;
  for_each node_names addHost ;;
  modify (set_links (fun _ => [])) ;;
  modify (set_subnet_idx 0) ;;
  add_p2p args "s1" "s2" "isl" ;;
  add_p2p args "s2" "s3" "isl" ;;
  add_p2p args "g1" "s1" "access" ;;
  add_p2p args "g1" "s2" "access" ;;
  add_p2p args "g2" "s2" "access" ;;
  add_p2p args "g2" "s3" "access" ;;
  net_start ;;
  configLinkStatus "g1" "s2" down ;;
  configLinkStatus "g2" "s2" down ;;
  modify (set_procs (fun _ => [])).

(** ** DaemonSupervisor *)

(** [d[k] = v] and [d.pop(k, None)] on a [dict] kept in insertion order. *)
Fixpoint dict_set {V} (k : string) (v : V) (d : list (string * V)) : list (string * V) :=
  match d with
  | [] => [(k, v)]
  | (k', v') :: d' =>
      if String.eqb k' k then (k, v) :: d' else (k', v') :: dict_set k v d'
  end.

Definition dict_pop {V} (k : string) (d : list (string * V)) : list (string * V) :=
  List.filter (fun kv => negb (String.eqb (fst kv) k)) d.

Definition sock_of (state_dir name : string) : string :=
  path_join state_dir (name +:+ ".sock").

(** [nodes[name].popen(cmdline, shell=True)]: the shell opens the log file
    the command line redirects to. *)
Definition popen_on (env : environment) (name cmdline sock_path log_path : string)
  : M popen :=
  do node <- nodes_get name;
  modify (set_fs (insert log_path Log)) ;;
  ret (mkProc cmdline sock_path (daemon env node)).

Definition is_FileNotFoundError (e : exn) : bool :=
  match e with
  | FileNotFoundError _ => true
  | _ => false
  end.

(** The body of the loop that starts [ndnd] on every node. *)
Definition start_daemon (env : environment) (args : arguments)
    (state_dir ndnd_bin name : string) : M unit :=
  let sock_path := path_join state_dir (name +:+ ".sock") in
  let conf_path := path_join state_dir (name +:+ ".yml") in
  let log_path := path_join state_dir (name +:+ ".log") in
  try_except (os_unlink sock_path) is_FileNotFoundError (ret tt) ;;
  _write_combined_conf conf_path sock_path
    (args_network args +:+ "/" +:+ name) (args_network args) (args_udp_port args) ;;
  do proc <- popen_on env name
    (dq +:+ ndnd_bin +:+ dq +:+ " daemon " +:+ dq +:+ conf_path +:+ dq
        +:+ " >" +:+ dq +:+ log_path +:+ dq +:+ " 2>&1")
    sock_path log_path;
  modify (set_procs (dict_set name proc)).

(** ** ReadinessWaiter *)

Definition time_time : M Q := gets clock.

(** [time.sleep(d)]: the clock moves on and the daemons get to act. *)
Definition time_sleep (env : environment) (d : Q) : M unit :=
  modify (fun w =>
    set_time (S (ticks w)) (clock w + d)
             (set_fs (background env (ticks w)) w)).

(** [[name for name in names if not os.path.exists(<socket of name>)]] *)
Definition missing_in (state_dir : string) (names : list string) (w : world)
  : list string :=
  List.filter
    (fun name => negb (bool_decide (is_Some (fs w !! sock_of state_dir name))))
    names.

Definition missing_sockets (state_dir : string) (names : list string) : M (list string) :=
  gets (missing_in state_dir names).

Definition is_empty {A} (l : list A) : bool :=
  match l with [] => true | _ => false end.

(** The [while time.time() < deadline] loop, at most [fuel] iterations;
    [None] when the iterations run out before the loop ends. *)
Fixpoint wait_loop (env : environment) (state_dir : string) (names : list string)
    (deadline : Q) (missing : list string) (fuel : nat) : M (option (list string)) :=
  match fuel with
  | O => ret None
  | S fuel' =>
      do now <- time_time;
      if negb (Qle_bool deadline now) then
        do missing <- missing_sockets state_dir names;
        if is_empty missing then ret (Some missing)
        else
          time_sleep env 0.1 ;;
          wait_loop env state_dir names deadline missing fuel'
      else ret (Some missing)
  end.

(** Lines 283 to 289: the deadline is eight seconds away and nothing is
    missing before the first poll. *)
Definition wait_all (env : environment) (state_dir : string) (names : list string)
    (fuel : nat) : M (option (list string)) :=
  do now <- time_time;
  let deadline := (now + 8)%Q in
  wait_loop env state_dir names deadline [] fuel.

(** The world as the [k]-th poll finds it: [k] sleeps of the polling
    interval have gone by. *)
Fixpoint after_sleeps (env : environment) (k : nat) (w : world) : world :=
  match k with
  | O => w
  | S k' => snd (time_sleep env 0.1 (after_sleeps env k' w))
  end.

(** Iterations that always suffice: eighty sleeps of a tenth of a second
    fill the eight seconds, and one more test ends the loop. *)
Definition enough_polls : nat := 81.

(** ** NeighborLinker *)

(** [nodes[name].cmd(cmdline)] *)
Definition cmd_on (name cmdline : string) : M unit :=
  do node <- nodes_get name;
  modify (add_cmd node cmdline).

Definition ndndctl (wrapper_path hostname : string) : string :=
  dq +:+ wrapper_path +:+ dq.

Definition link_create (wrapper_path hostname peer_ip : string) (udp_port : Z) : string :=
  ndndctl wrapper_path hostname +:+ " dv link-create " +:+ dq +:+ "udp://"
    +:+ peer_ip +:+ ":" +:+ str_int udp_port +:+ dq +:+ " >/dev/null 2>&1 || true".

(** The two commands of one link. *)
Definition link_both_ways (wrapper_path : string) (udp_port : Z) (l : link_rec) : M unit :=
  cmd_on (lk_a l) (link_create wrapper_path (lk_a l) (lk_b_ip l) udp_port) ;;
  cmd_on (lk_b l) (link_create wrapper_path (lk_b l) (lk_a_ip l) udp_port).

Definition alternate_access (l : link_rec) : bool :=
  same_pair (lk_a l) (lk_b l) "g1" "s2" || same_pair (lk_a l) (lk_b l) "g2" "s2".

(** Lines 297 to 306: every link but the two alternate access links. *)
Definition initial_linking (args : arguments) (wrapper_path : string) : M unit :=
  do ls <- gets links;
  for_each ls (fun l =>
    if alternate_access l then ret tt
    else link_both_ways wrapper_path (args_udp_port args) l).

(** ** HandoverScheduler *)

(** The body of [handover] after its [time.sleep]. *)
Definition handover (args : arguments) (wrapper_path : string) : M unit :=
  modify (add_log (InfoHandover (args_handover_after args))) ;;
  configLinkStatus "g1" "s1" down ;;
  configLinkStatus "g1" "s2" up ;;
  configLinkStatus "g2" "s3" down ;;
  configLinkStatus "g2" "s2" up ;;
  do ls <- gets links;
  for_each ls (fun l =>
    if negb (alternate_access l) then ret tt
    else link_both_ways wrapper_path (args_udp_port args) l).

(** ** Lifecycle *)

Definition send_signal (name : string) (proc : popen) : M unit :=
  modify (add_procop name SIGTERM) ;;
  if term_raises (p_beh proc) then raise ProcessLookupError else ret tt.

Definition proc_wait (name : string) (proc : popen) (timeout : Q) : M unit :=
  modify (add_procop name (WaitFor timeout)) ;;
  if exits_in_time (p_beh proc) then
    if tidy (p_beh proc) then modify (set_fs (delete (p_sock proc))) else ret tt
  else raise TimeoutExpired.

Definition proc_kill (name : string) (proc : popen) : M unit :=
  modify (add_procop name SIGKILL) ;;
  if kill_raises (p_beh proc) then raise ProcessLookupError else ret tt.

(** The body of the loop of [cleanup]. *)
Definition stop (name : string) (proc : popen) : M unit :=
  try_except
    (send_signal name proc ;; proc_wait name proc 2)
    is_Exception
    (try_except (proc_kill name proc) is_Exception (ret tt)) ;;
  modify (set_procs (dict_pop name)).

Definition cleanup (env : environment) : M unit :=
  do items <- gets procs;
  for_each items (fun item => stop (fst item) (snd item)) ;;
  try_except (net_stop env) is_Exception (ret tt).

(** ** [main] *)

(** Lines 166 to 175: the checks and the wrapper; returns the daemon
    binary, the state directory and the wrapper path. *)
Definition preflight (env : environment) (args : arguments)
  : M (string * string * string) :=
  _ensure_root env ;;
  (* setLogLevel("info") configures the logger of the process only *)
  let repo_root := abspath env (path_join (script_dir env) "..") in
  do ndnd_bin <- _find_ndnd env (args_ndnd args) repo_root;
  let state_dir := abspath env (args_state_dir args) in
  os_makedirs state_dir ;;
  let wrapper_path := path_join state_dir "ndndctl" in
  _write_host_wrapper wrapper_path ndnd_bin state_dir ;;
  ret (ndnd_bin, state_dir, wrapper_path).

(** Lines 262 to 339: what the [try] block does before it blocks; returns
    the delay of the handover thread when one was started. *)
Definition startup (env : environment) (args : arguments)
    (ndnd_bin state_dir wrapper_path : string) : M (option Q) :=
  for_each node_names (start_daemon env args state_dir ndnd_bin) ;;
  do waited <- wait_all env state_dir node_names enough_polls;
  let missing := default [] waited in
  (if negb (is_empty missing) then modify (add_log (WarnNotReady missing)) else ret tt) ;;
  initial_linking args wrapper_path ;;
  let timer :=
    if negb (Qle_bool (args_handover_after args) 0)
    then Some (args_handover_after args) else None in
  modify (add_log InfoRunning) ;;
  modify (add_log (InfoStateDir state_dir)) ;;
  modify (add_log (InfoUsage wrapper_path)) ;;
  modify (add_log (InfoExamplePut wrapper_path)) ;;
  modify (add_log (InfoExampleCat wrapper_path)) ;;
  (if args_cli args then ret tt else modify (add_log InfoSkippingCli)) ;;
  ret timer.

(** What happens while the control thread blocks in [CLI(net)] or in its
    endless sleep: time passes, or the blocking call ends ([CLI] returns,
    or [KeyboardInterrupt] is raised in the sleep). *)
Inductive tick : Type :=
| Elapse (dt : Q)
| Leave.

Definition is_KeyboardInterrupt (e : exn) : bool :=
  match e with
  | KeyboardInterrupt => true
  | _ => false
  end.

(** The blocking phase over a finite timeline.  [timer] is what is left of
    the handover thread's sleep; the thread runs [handover] once its sleep
    is over and then ends.  Returns [false] when the timeline ends with the
    control thread still blocked. *)
Fixpoint block (args : arguments) (wrapper_path : string) (timer : option Q)
    (timeline : list tick) : M bool :=
  match timeline with
  | [] => ret false
  | Leave :: _ => if args_cli args then ret true else raise KeyboardInterrupt
  | Elapse dt :: rest =>
      modify (fun w => set_time (ticks w) (clock w + dt) w) ;;
      match timer with
      | Some remaining =>
          if Qle_bool remaining dt then
            handover args wrapper_path ;;
            block args wrapper_path None rest
          else block args wrapper_path (Some (remaining - dt)%Q) rest
      | None => block args wrapper_path None rest
      end
  end.

(** How a run looks at the end of the timeline: [main] has returned, has
    raised, or is still blocked (the handover thread is a daemon thread and
    dies with the process). *)
Inductive outcome : Type :=
| Returned
| Raised (e : exn)
| Running.

(** [try: body  except KeyboardInterrupt: pass  finally: cleanup()] *)
Definition guarded (env : environment) (body : M bool) : world -> outcome * world :=
  fun w =>
    match body w with
    | (Ok false, w') => (Running, w')
    | (r, w') =>
        match try_finally (try_except (lift r) is_KeyboardInterrupt (ret true))
                          (cleanup env) w' with
        | (Ok _, w'') => (Returned, w'')
        | (Raise e, w'') => (Raised e, w'')
        end
    end.

Definition main (env : environment) (args : arguments) (timeline : list tick)
  : world -> outcome * world :=
  fun w =>
    match (do ctx <- preflight env args; build_topology args ;; ret ctx) w with
    | (Raise e, w1) => (Raised e, w1)
    | (Ok (ndnd_bin, state_dir, wrapper_path), w1) =>
        guarded env
          (do timer <- startup env args ndnd_bin state_dir wrapper_path;
           block args wrapper_path timer timeline) w1
    end.

(** A fresh process: nothing built, nothing running, nothing said. *)
Definition boot (files : gmap string fobj) (now : Q) : world :=
  mkWorld files 0 now (mkNet [] [] false 0) [] 0 [] [] [] [].

(** ** Vocabulary of the statements *)

(** The calls one [stop] makes on a process handle. *)
Definition stop_ops (item : string * popen) : list (string * procop) :=
  let name := fst item in
  let b := p_beh (snd item) in
  (name, SIGTERM) ::
  (if term_raises b then [(name, SIGKILL)]
   else (name, WaitFor 2) :: (if exits_in_time b then [] else [(name, SIGKILL)])).

(** The daemon got SIGTERM, exited within the wait and removed its socket. *)
Definition exits_tidily (p : popen) : bool :=
  negb (term_raises (p_beh p)) && exits_in_time (p_beh p) && tidy (p_beh p).

(** How often the handover has run: its log line is said once per run. *)
Definition is_handover_line (m : logmsg) : bool :=
  match m with
  | InfoHandover _ => true
  | _ => false
  end.

Definition handovers (w : world) : nat :=
  length (List.filter is_handover_line (logs w)).

(** The part of the world the topology, the neighbour commands and the
    handover live in. *)
Definition control (w : world) : mininet * list link_rec * list (string * string) * nat :=
  (net w, links w, cmds w, handovers w).

(** A statement that leaves that part alone, whatever it returns, and
    raises nothing but what [except Exception] would catch. *)
Definition frames {A} (c : M A) : Prop :=
  forall w,
    control (snd (c w)) = control w /\
    match fst (c w) with
    | Ok _ => True
    | Raise e => is_Exception e = true
    end.

(** The options of the two link classes. *)
Definition opts_of (r : result (gmap string val)) : gmap string val :=
  match r with
  | Ok kw => kw
  | Raise _ => ∅
  end.

Definition access_opts (args : arguments) : gmap string val :=
  opts_of (_tc_link_kwargs (Some (args_access_bw args))
                           (Some (args_access_delay args))
                           (Some (args_access_jitter args))
                           (Some (args_access_loss args))
                           (Some (args_queue args))).

Definition isl_opts (args : arguments) : gmap string val :=
  opts_of (_tc_link_kwargs (Some (args_isl_bw args))
                           (Some (args_isl_delay args))
                           (Some (args_isl_jitter args))
                           (Some (args_isl_loss args))
                           (Some (args_queue args))).

(** The six substrate links, with the status of the four access links. *)
Definition six_links (args : arguments) (g1s1 g1s2 g2s2 g2s3 : status) : list tclink :=
  [ mkLink "s1" "s2" "10.0.0.1/30" "10.0.0.2/30" (isl_opts args) up;
    mkLink "s2" "s3" "10.0.0.5/30" "10.0.0.6/30" (isl_opts args) up;
    mkLink "g1" "s1" "10.0.0.9/30" "10.0.0.10/30" (access_opts args) g1s1;
    mkLink "g1" "s2" "10.0.0.13/30" "10.0.0.14/30" (access_opts args) g1s2;
    mkLink "g2" "s2" "10.0.0.17/30" "10.0.0.18/30" (access_opts args) g2s2;
    mkLink "g2" "s3" "10.0.0.21/30" "10.0.0.22/30" (access_opts args) g2s3 ].

Definition steady_net (args : arguments) : mininet :=
  mkNet node_names (six_links args up down down up) true 0.

Definition switched_net (args : arguments) : mininet :=
  mkNet node_names (six_links args down up up down) true 0.

(** The script's [links] list once the topology is built. *)
Definition built_links : list link_rec :=
  [ mkRec "s1" "s2" "10.0.0.1" "10.0.0.2" "10.0.0.0/30" "isl" 0;
    mkRec "s2" "s3" "10.0.0.5" "10.0.0.6" "10.0.0.4/30" "isl" 1;
    mkRec "g1" "s1" "10.0.0.9" "10.0.0.10" "10.0.0.8/30" "access" 2;
    mkRec "g1" "s2" "10.0.0.13" "10.0.0.14" "10.0.0.12/30" "access" 3;
    mkRec "g2" "s2" "10.0.0.17" "10.0.0.18" "10.0.0.16/30" "access" 4;
    mkRec "g2" "s3" "10.0.0.21" "10.0.0.22" "10.0.0.20/30" "access" 5 ].

(** The world [build_topology] leaves. *)
Definition built (args : arguments) (w : world) : world :=
  mkWorld (fs w) (ticks w) (clock w) (steady_net args) built_links 6 []
          (cmds w) (procops w) (logs w).

(** Status of the link between two nodes, if there is one. *)
Definition link_status (w : world) (a b : string) : option status :=
  l_status <$> head (List.filter (fun l => connects l a b) (tclinks (net w))).

(** The access links of a ground node, as the script's [links] names them:
    the relays it may attach to, and those whose link is up. *)
Definition candidates (w : world) (ground : string) : list string :=
  map lk_b
      (List.filter (fun l => String.eqb (lk_kind l) "access" && String.eqb (lk_a l) ground)
                   (links w)).

Definition attached (w : world) (ground : string) : list string :=
  List.filter
    (fun relay => bool_decide (link_status w ground relay = Some up))
    (candidates w ground).

(** The neighbour commands of a set of links, after the words of the
    specification: for every link two commands, one on each end, each
    naming the peer's address and the UDP port. *)
Definition neighbour_cmds (wrapper_path : string) (udp_port : Z)
    (set : list (string * string * string * string)) : list (string * string) :=
  flat_map
    (fun '(a, a_ip, b, b_ip) =>
       [ (a, link_create wrapper_path a b_ip udp_port);
         (b, link_create wrapper_path b a_ip udp_port) ])
    set.



Definition initial_set : list (string * string * string * string) :=
  [ ("s1", "10.0.0.1", "s2", "10.0.0.2");
    ("s2", "10.0.0.5", "s3", "10.0.0.6");
    ("g1", "10.0.0.9", "s1", "10.0.0.10");
    ("g2", "10.0.0.21", "s3", "10.0.0.22") ].

Definition handover_set : list (string * string * string * string) :=
  [ ("g1", "10.0.0.13", "s2", "10.0.0.14");
    ("g2", "10.0.0.17", "s2", "10.0.0.18") ].



(** The delay the handover thread is started with, if it is started. *)
Definition armed (args : arguments) : option Q :=
  if negb (Qle_bool (args_handover_after args) 0)
  then Some (args_handover_after args) else None.

(** The wrapper path [main] computes. *)
Definition wrapper_of (env : environment) (args : arguments) : string :=
  path_join (abspath env (args_state_dir args)) "ndndctl".

(** For each ground node and each relay its access links lead to, the
    status of the link, in the order of the script's [links]. *)
Definition access_report (w : world) : list (string * string * option status) :=
  flat_map
    (fun ground => map (fun relay => (ground, relay, link_status w ground relay))
                       (candidates w ground))
    ["g1"; "g2"].

(** STEADY: g1 is attached to s1 and g2 to s3. *)
Definition steady_state (w : world) : Prop :=
  access_report w
    = [ ("g1", "s1", Some up); ("g1", "s2", Some down);
        ("g2", "s2", Some down); ("g2", "s3", Some up) ] /\
  attached w "g1" = ["s1"] /\ attached w "g2" = ["s3"].

(** SWITCHED: both ground nodes are attached to s2. *)
Definition switched_state (w : world) : Prop :=
  access_report w
    = [ ("g1", "s1", Some down); ("g1", "s2", Some up);
        ("g2", "s2", Some up); ("g2", "s3", Some down) ] /\
  attached w "g1" = ["s2"] /\ attached w "g2" = ["s2"].

(** The defaults, with a handover delay. *)
Definition handover_args (after : Q) : arguments :=
  mkArgs None "/tmp/ndn-mn" "/satnet" 6363 false
         (PyInt 20) "25ms" "2ms" (PyFloat 0.2)
         (PyInt 50) "8ms" "1ms" (PyFloat 0.05)
         200 after.

(** [c] does not occur in [s]. *)
Fixpoint lacks (c : ascii) (s : string) : Prop :=
  match s with
  | EmptyString => True
  | String a s' => a <> c /\ lacks c s'
  end.

(** The characters a rendered [int] is made of. *)
Definition numeric (c : ascii) : Prop :=
  In c (list_ascii_of_string "-0123456789").

(** The value of a number, for comparisons. *)
Definition num_value (n : num) : Q :=
  match n with
  | PyInt z => inject_Z z
  | PyFloat q => q
  end.

(** A duration text with a leading minus sign. *)
Definition negative_duration (o : option string) : Prop :=
  exists rest, o = Some (String "-" rest).

(** The constraints the specification lists for an impairment profile,
    written after its words: bandwidth strictly positive, delay and jitter
    not negative, loss within [0,100], a present queue depth strictly
    positive. *)
Definition spec_profile_valid (bw : option num) (delay jitter : option string)
    (loss : option num) (queue : option Z) : Prop :=
  (forall x, bw = Some x -> (0 < num_value x)%Q) /\
  ~ negative_duration delay /\
  ~ negative_duration jitter /\
  (forall x, loss = Some x -> (0 <= num_value x <= 100)%Q) /\
  (forall n, queue = Some n -> 0 < n).

(** The keys [_tc_link_kwargs] may set. *)
Definition tc_keys : gset string :=
  {[ "bw"; "use_htb"; "delay"; "jitter"; "loss"; "max_queue_size" ]}.

(** What [if x:] lets through of a [str | None]. *)
Definition nonempty_text (o : option string) : option val :=
  match o with
  | Some s => if decide (s = EmptyString) then None else Some (VStr s)
  | None => None
  end.

(** The conventional build location, as [main] computes it. *)
Definition conventional_ndnd (env : environment) : string :=
  path_join (path_join (abspath env (path_join (script_dir env) "..")) "ndnd") "ndnd".

(** What [cleanup] leaves alone. *)
Definition keeps_control (w w' : world) : Prop :=
  tclinks (net w') = tclinks (net w) /\ hosts (net w') = hosts (net w) /\
  links w' = links w /\ cmds w' = cmds w /\ logs w' = logs w /\
  clock w' = clock w /\ ticks w' = ticks w /\ subnet_idx w' = subnet_idx w.

(** ** Scenarios *)

(** Nothing installed: no [ndnd] on the search path, an empty file system. *)
Definition bare_env : environment :=
  mkEnv 0 None (fun p => p) "/repo/scripts"
        (fun _ => mkBeh false true false true) (fun _ m => m) (fun _ => false).


(** Daemons that come up during the first sleep and then ignore SIGTERM. *)
Definition stubborn_env : environment :=
  mkEnv 0 (Some "/usr/bin/ndnd") (fun p => p) "/repo/scripts"
        (fun _ => mkBeh false false false true)
        (fun k files =>
           if Nat.eqb k 0
           then foldr (fun n m => <[sock_of "/tmp/ndn-mn" n := Socket]> m) files node_names
           else files)
        (fun _ => false).

(** ** Vocabulary of the further properties *)

(** The options a link of a kind is created with. *)
Definition class_opts (args : arguments) (kind : string) : gmap string val :=
  if String.eqb kind "access" then access_opts args else isl_opts args.

(** The script's [links] and the substrate agree: the [k]-th record has
    handle [k], carries the addresses of block [k], and the substrate link
    behind the handle joins the same nodes with these addresses and the
    options of the record's kind; the counter is the number of links. *)
Definition wired (args : arguments) (w : world) : Prop :=
  subnet_idx w = Z.of_nat (length (links w)) /\
  length (tclinks (net w)) = length (links w) /\
  forall k l, links w !! k = Some l ->
    lk_link l = k /\
    _alloc_p2p_subnet (Z.of_nat k) = Ok (lk_cidr l, lk_a_ip l, lk_b_ip l) /\
    exists st,
      tclinks (net w) !! k
      = Some (mkLink (lk_a l) (lk_b l) (lk_a_ip l +:+ "/30") (lk_b_ip l +:+ "/30")
                     (class_opts args (lk_kind l)) st).

(** The two commands of a link, as pairs of node and command line. *)
Definition two_cmds (wrapper_path : string) (udp_port : Z) (l : link_rec)
  : list (string * string) :=
  [ (lk_a l, link_create wrapper_path (lk_a l) (lk_b_ip l) udp_port);
    (lk_b l, link_create wrapper_path (lk_b l) (lk_a_ip l) udp_port) ].

(** Both ends of every recorded link are nodes of the run. *)
Definition known_ends (w : world) : Prop :=
  forall l, In l (links w) -> In (lk_a l) node_names /\ In (lk_b l) node_names.

(** The unordered pairs [{a, b}] and [{x, y}] are the same. *)
Definition same_ends (a b x y : string) : Prop :=
  a = x /\ b = y \/ a = y /\ b = x.

(** The configuration and log paths of a node, as [main] forms them. *)
Definition conf_of (state_dir name : string) : string :=
  path_join state_dir (name +:+ ".yml").

Definition log_of (state_dir name : string) : string :=
  path_join state_dir (name +:+ ".log").


(** What [os.path.join] puts in front of a relative second argument. *)
Definition join_prefix (a : string) : string :=
  if String.eqb a EmptyString || ends_with_slash a then a else a +:+ "/".

(* ================================================================== *)
(** * Properties *)

Example alloc_0 :
  _alloc_p2p_subnet 0 = Ok ("10.0.0.0/30", "10.0.0.1", "10.0.0.2").
Proof. reflexivity. Qed.

Example alloc_5 :
  _alloc_p2p_subnet 5 = Ok ("10.0.0.20/30", "10.0.0.21", "10.0.0.22").
Proof. reflexivity. Qed.

Example alloc_64 :
  _alloc_p2p_subnet 64 = Ok ("10.0.1.0/30", "10.0.1.1", "10.0.1.2").
Proof. reflexivity. Qed.

(** ** Decimal rendering *)

Section Rendering.

Lemma uint_lacks c d : ~ numeric c -> lacks c (NilEmpty.string_of_uint d).
Proof.
  intros Hc. induction d; simpl; try exact I;
    (split; [ intros <-; apply Hc; unfold numeric; simpl; tauto | assumption ]).
Qed.

Lemma str_int_lacks c z : ~ numeric c -> lacks c (str_int z).
Proof.
  intros Hc. unfold str_int. destruct (Z.to_int z) as [d | d]; simpl.
  - now apply uint_lacks.
  - split; [ intros <-; apply Hc; unfold numeric; simpl; tauto
           | now apply uint_lacks ].
Qed.

Lemma str_int_inj a b : str_int a = str_int b -> a = b.
Proof.
  unfold str_int. intros H.
  apply DecimalZ.to_int_inj.
  assert (E : Some (Z.to_int a) = Some (Z.to_int b))
    by (rewrite <- !NilEmpty.isi; now rewrite H).
  now injection E.
Qed.

(** Splitting at the first separator is unambiguous. *)
Lemma split_at_sep c s1 : forall s2 r1 r2,
  lacks c s1 -> lacks c s2 ->
  s1 +:+ String c r1 = s2 +:+ String c r2 -> s1 = s2 /\ r1 = r2.
Proof.
  induction s1 as [| a s1 IH]; intros [| b s2] r1 r2 H1 H2 E; simpl in *.
  - injection E as ->. now split.
  - injection E as <- _. now destruct H2.
  - injection E as -> _. now destruct H1.
  - injection E as -> E. destruct H1 as [_ H1], H2 as [_ H2].
    destruct (IH _ _ _ H1 H2 E) as [-> ->]. now split.
Qed.

Lemma append_cons a s t : String a s +:+ t = String a (s +:+ t).
Proof. reflexivity. Qed.

Lemma append_assoc s t u : (s +:+ t) +:+ u = s +:+ (t +:+ u).
Proof.
  induction s as [| a s IH]; [ reflexivity | ].
  rewrite !append_cons. now rewrite IH.
Qed.

Lemma dot_not_numeric : ~ numeric "."%char.
Proof. unfold numeric; simpl. intuition discriminate. Qed.

Lemma slash_not_numeric : ~ numeric "/"%char.
Proof. unfold numeric; simpl. intuition discriminate. Qed.

Lemma dotted_inj t x t' x' : dotted t x = dotted t' x' -> t = t' /\ x = x'.
Proof.
  unfold dotted. intros E.
  apply (inj (String.app "10.0.")) in E.
  apply split_at_sep in E; try (apply str_int_lacks, dot_not_numeric).
  destruct E as [Et Ex]. split; now apply str_int_inj.
Qed.

Lemma cidr_inj t x t' x' :
  dotted t x +:+ "/30" = dotted t' x' +:+ "/30" -> t = t' /\ x = x'.
Proof.
  unfold dotted. intros E.
  rewrite !append_assoc in E.
  apply (inj (String.app "10.0.")) in E.
  apply split_at_sep in E; try (apply str_int_lacks, dot_not_numeric).
  destruct E as [Et Ex].
  apply split_at_sep in Ex; try (apply str_int_lacks, slash_not_numeric).
  destruct Ex as [Ex _]. split; now apply str_int_inj.
Qed.

End Rendering.

(** ** SubnetAllocator *)

Lemma block_base_linear index : block_base index = 167772160 + 4 * index.
Proof.
  unfold block_base, octet3, octet4.
  pose proof (Z.div_mod index 64). lia.
Qed.

Lemma octets_determine_index i j k k' :
  0 <= k < 4 -> 0 <= k' < 4 ->
  octet3 i = octet3 j -> octet4 i + k = octet4 j + k' -> i = j.
Proof.
  unfold octet3, octet4. intros Hk Hk' H3 H4.
  pose proof (Z.div_mod i 64). pose proof (Z.div_mod j 64).
  pose proof (Z.mod_pos_bound i 64). pose proof (Z.mod_pos_bound j 64).
  lia.
Qed.

Lemma block_addresses_spec a index :
  a ∈ block_addresses index <->
  exists k, 0 <= k < 4 /\ a = dotted (octet3 index) (octet4 index + k).
Proof.
  unfold block_addresses. simpl.
  rewrite !elem_of_cons, elem_of_nil. split.
  - intros [-> | [-> | [-> | [-> | []]]]];
      [ exists 0 | exists 1 | exists 2 | exists 3 ]; (split; [ lia | reflexivity ]).
  - intros (k & Hk & ->).
    assert (k = 0 \/ k = 1 \/ k = 2 \/ k = 3) as [-> | [-> | [-> | ->]]] by lia;
      tauto.
Qed.

Lemma blocks_share_no_address i j a :
  i <> j -> a ∈ block_addresses i -> a ∈ block_addresses j -> False.
Proof.
  intros Hij Hi Hj.
  apply block_addresses_spec in Hi as (k & Hk & ->).
  apply block_addresses_spec in Hj as (k' & Hk' & E).
  apply dotted_inj in E as [E3 E4].
  apply Hij. exact (octets_determine_index i j k k' Hk Hk' E3 E4).
Qed.

(** C2: for distinct non-negative indices the returned /30 subnets are
    disjoint: no address lies in both blocks (as texts and as numbers), the
    two CIDR texts differ and so do the host addresses handed out. *)
Theorem alloc_disjoint (i j : Z) :
  0 <= i -> 0 <= j -> i <> j ->
  (forall a, a ∈ block_addresses i -> a ∉ block_addresses j) /\
  (block_base i + 3 < block_base j \/ block_base j + 3 < block_base i) /\
  match _alloc_p2p_subnet i, _alloc_p2p_subnet j with
  | Ok (ci, ai, bi), Ok (cj, aj, bj) =>
      ci <> cj /\ ai <> aj /\ ai <> bj /\ bi <> aj /\ bi <> bj /\
      ai ∈ block_addresses i /\ bi ∈ block_addresses i /\
      aj ∈ block_addresses j /\ bj ∈ block_addresses j
  | _, _ => False
  end.
Proof.
  intros Hi Hj Hij. split; [ | split ].
  - intros a Ha Hb. exact (blocks_share_no_address i j a Hij Ha Hb).
  - rewrite !block_base_linear. lia.
  - unfold _alloc_p2p_subnet.
    assert (D : forall k k', 0 <= k < 4 -> 0 <= k' < 4 ->
      dotted (octet3 i) (octet4 i + k) <> dotted (octet3 j) (octet4 j + k')).
    { intros k k' Hk Hk' E. apply dotted_inj in E as [E3 E4].
      apply Hij. exact (octets_determine_index i j k k' Hk Hk' E3 E4). }
    repeat split.
    + intros E. apply cidr_inj in E as [E3 E4].
      apply Hij. apply (octets_determine_index i j 0 0); lia.
    + apply D; lia.
    + apply D; lia.
    + apply D; lia.
    + apply D; lia.
    + apply block_addresses_spec. exists 1. split; [ lia | reflexivity ].
    + apply block_addresses_spec. exists 2. split; [ lia | reflexivity ].
    + apply block_addresses_spec. exists 1. split; [ lia | reflexivity ].
    + apply block_addresses_spec. exists 2. split; [ lia | reflexivity ].
Qed.

Lemma alloc_disjoint_witness :
  (0 <= 2 /\ 0 <= 3 /\ 2 <> 3) /\
  (forall a, a ∈ block_addresses 2 -> a ∉ block_addresses 3) /\
  (block_base 2 + 3 < block_base 3 \/ block_base 3 + 3 < block_base 2).
Proof.
  split; [ lia | ].
  destruct (alloc_disjoint 2 3) as (H1 & H2 & _); [ lia | lia | lia | ].
  split; [ exact H1 | exact H2 ].
Defined.

(** At the first index past the capacity the function returns a block
    whose third field is 256: no error is raised. *)
Lemma alloc_at_capacity_returns :
  capacity <= 16384 /\
  _alloc_p2p_subnet 16384 = Ok ("10.0.256.0/30", "10.0.256.1", "10.0.256.2") /\
  ~ fails (_alloc_p2p_subnet 16384).
Proof.
  split; [ unfold capacity; lia | split; [ reflexivity | ] ].
  intros [e He]. discriminate He.
Qed.

(** C3 (amended): the allocator is a total function that never raises; it
    returns the [index]-th consecutive /30 block counted from 10.0.0.0, which
    lies inside 10.0.0.0/16 with both octets in range exactly for the
    indices below the capacity. *)
Theorem alloc_total_consecutive (index : Z) :
  0 <= index ->
  ~ fails (_alloc_p2p_subnet index) /\
  _alloc_p2p_subnet index =
    Ok (dotted (octet3 index) (octet4 index) +:+ "/30",
        dotted (octet3 index) (octet4 index + 1),
        dotted (octet3 index) (octet4 index + 2)) /\
  block_base index = 167772160 + 4 * index /\
  block_base (index + 1) = block_base index + 4 /\
  0 <= octet4 index <= 252 /\
  (index < capacity <-> octet3 index <= 255) /\
  (index < capacity <-> block_base index + 3 < 167772160 + 65536).
Proof.
  intros Hpos. repeat split.
  - intros [e He]. discriminate He.
  - apply block_base_linear.
  - rewrite !block_base_linear. lia.
  - unfold octet4. pose proof (Z.mod_pos_bound index 64). lia.
  - unfold octet4. pose proof (Z.mod_pos_bound index 64). lia.
  - unfold capacity, octet3. intros H.
    pose proof (Z.div_mod index 64). pose proof (Z.mod_pos_bound index 64). lia.
  - unfold capacity, octet3. intros H.
    pose proof (Z.div_mod index 64). pose proof (Z.mod_pos_bound index 64). lia.
  - rewrite block_base_linear. unfold capacity. lia.
  - rewrite block_base_linear. unfold capacity. lia.
Qed.

Lemma alloc_total_consecutive_witness :
  0 <= 5 /\
  ~ fails (_alloc_p2p_subnet 5) /\
  block_base (5 + 1) = block_base 5 + 4 /\
  (5 < capacity <-> octet3 5 <= 255).
Proof.
  split; [ lia | ].
  destruct (alloc_total_consecutive 5) as (H1 & _ & _ & H4 & _ & H6 & _); [ lia | ].
  split; [ exact H1 | split; [ exact H4 | exact H6 ] ].
Defined.

(** ** ImpairmentProfile: what [_tc_link_kwargs] builds *)

(** A profile that breaks each of the constraints is built all the same. *)
Lemma tc_link_kwargs_builds_invalid_profile :
  let bw := Some (PyFloat (-5)) in
  let delay := Some "-3ms" in
  let jitter := Some "-1ms" in
  let loss := Some (PyFloat 250) in
  let queue := Some 0 in
  ~ spec_profile_valid bw delay jitter loss queue /\
  ~ (0 < num_value (PyFloat (-5)))%Q /\
  negative_duration delay /\
  ~ (num_value (PyFloat 250) <= 100)%Q /\
  ~ fails (_tc_link_kwargs bw delay jitter loss queue) /\
  _tc_link_kwargs bw delay jitter loss queue =
    Ok (<["bw" := VNum (PyFloat (-5))]>
       (<["use_htb" := VBool true]>
       (<["delay" := VStr "-3ms"]>
       (<["jitter" := VStr "-1ms"]>
       (<["loss" := VNum (PyFloat 250)]>
       (<["max_queue_size" := VInt 0]> ∅)))))).
Proof.
  cbv zeta. split; [ | split; [ | split; [ | split; [ | split ] ] ] ].
  - intros (Hbw & _). specialize (Hbw _ eq_refl). now vm_compute in Hbw.
  - intros H. now vm_compute in H.
  - now exists "3ms".
  - intros H. now vm_compute in H.
  - intros [e He]. discriminate He.
  - reflexivity.
Qed.

Ltac case_optional_inputs bw delay jitter loss queue :=
  destruct bw as [bw |];
  destruct delay as [[| ? ?] |];
  destruct jitter as [[| ? ?] |];
  destruct loss as [loss |];
  destruct queue as [queue |].

(** C4 (amended): building the link options validates nothing and never
    fails; whatever numbers and duration texts are supplied, in range or
    not, are stored as they are. *)
Theorem tc_link_kwargs_never_rejects
    (bw : option num) (delay jitter : option string)
    (loss : option num) (queue : option Z) :
  ~ fails (_tc_link_kwargs bw delay jitter loss queue) /\
  exists kw : gmap string val,
    _tc_link_kwargs bw delay jitter loss queue = Ok kw /\
    (forall x, bw = Some x -> kw !! "bw" = Some (VNum x)) /\
    (forall d, delay = Some d -> d <> EmptyString -> kw !! "delay" = Some (VStr d)) /\
    (forall j, jitter = Some j -> j <> EmptyString -> kw !! "jitter" = Some (VStr j)) /\
    (forall x, loss = Some x -> kw !! "loss" = Some (VNum x)) /\
    (forall n, queue = Some n -> kw !! "max_queue_size" = Some (VInt n)).
Proof.
  split; [ intros [e He]; discriminate He | ].
  eexists. split; [ reflexivity | ].
  case_optional_inputs bw delay jitter loss queue;
    (repeat split; intros; simplify_eq; reflexivity).
Qed.

(** ** Asymmetric treatment of the inputs *)

(** C10: bandwidth, loss and queue are stored whenever they are not [None];
    delay and jitter only when they are non-empty texts; [use_htb] is present
    exactly when bandwidth is; no other key is ever present. *)
Theorem tc_link_kwargs_keys
    (bw : option num) (delay jitter : option string)
    (loss : option num) (queue : option Z) :
  exists kw : gmap string val,
    _tc_link_kwargs bw delay jitter loss queue = Ok kw /\
    kw !! "bw" = VNum <$> bw /\
    kw !! "use_htb" = (fun _ => VBool true) <$> bw /\
    kw !! "delay" = nonempty_text delay /\
    kw !! "jitter" = nonempty_text jitter /\
    kw !! "loss" = VNum <$> loss /\
    kw !! "max_queue_size" = VInt <$> queue /\
    dom kw ⊆ tc_keys.
Proof.
  eexists. split; [ reflexivity | ].
  case_optional_inputs bw delay jitter loss queue;
    cbv beta iota zeta delta [truthy String.eqb negb];
    (repeat split; try reflexivity);
    rewrite ?dom_insert_L, dom_empty_L; unfold tc_keys;
    apply elem_of_subseteq; intros k;
    rewrite ?elem_of_union, ?elem_of_singleton, ?elem_of_empty; tauto.
Qed.

Example tc_zero_loss_kept :
  exists kw, _tc_link_kwargs None None None (Some (PyFloat 0)) None = Ok kw /\
             kw !! "loss" = Some (VNum (PyFloat 0)).
Proof. eexists. split; reflexivity. Qed.

Example tc_empty_delay_dropped :
  exists kw, _tc_link_kwargs None (Some EmptyString) (Some EmptyString) None None = Ok kw /\
             kw = ∅.
Proof. eexists. split; reflexivity. Qed.

Example tc_defaults_access :
  exists kw,
    _tc_link_kwargs (Some (PyInt 20)) (Some "25ms") (Some "2ms")
                    (Some (PyFloat 0.2)) (Some 200) = Ok kw /\
    dom kw = tc_keys.
Proof.
  eexists. split; [ reflexivity | ].
  cbv beta iota zeta delta [truthy String.eqb negb].
  rewrite !dom_insert_L, dom_empty_L. unfold tc_keys. set_solver.
Qed.

(** ** Fatal pre-flight: the daemon binary cannot be found *)

Lemma find_ndnd_unresolved env explicit w :
  truthy explicit = false ->
  truthy (which_ndnd env) = false ->
  fs w !! conventional_ndnd env = None ->
  exists msg,
    _find_ndnd env explicit (abspath env (path_join (script_dir env) "..")) w
    = (Raise (FileNotFoundError msg), w).
Proof.
  intros He Hw Hc. unfold _find_ndnd. rewrite He, Hw.
  unfold bind, path_exists, gets. fold (conventional_ndnd env). rewrite Hc.
  rewrite bool_decide_eq_false_2 by (intros [x Hx]; discriminate Hx).
  eexists. reflexivity.
Qed.

(** C7: with no explicit path, nothing on the search path and nothing at
    the conventional build location, the run raises before anything is
    created or written: the world it leaves is the world it found. *)
Theorem unresolved_daemon_aborts_untouched env args timeline w :
  truthy (args_ndnd args) = false ->
  truthy (which_ndnd env) = false ->
  fs w !! conventional_ndnd env = None ->
  exists e,
    main env args timeline w = (Raised e, w) /\
    (euid env = 0 -> exists msg, e = FileNotFoundError msg).
Proof.
  intros He Hw Hc.
  destruct (find_ndnd_unresolved env (args_ndnd args) w He Hw Hc) as [msg Hf].
  unfold main, preflight, _ensure_root.
  destruct (Z.eqb_spec (euid env) 0) as [Hroot | Hroot]; simpl negb; cbv iota.
  - exists (FileNotFoundError msg). split; [ | intros _; now exists msg ].
    unfold bind at 1 2 3. unfold ret at 1. unfold bind at 1. rewrite Hf.
    reflexivity.
  - eexists. split; [ reflexivity | intros H; contradiction ].
Qed.

Lemma unresolved_daemon_aborts_untouched_witness :
  let w := boot ∅ 0 in
  (truthy (args_ndnd default_args) = false /\
   truthy (which_ndnd bare_env) = false /\
   fs w !! conventional_ndnd bare_env = None) /\
  exists e, main bare_env default_args [Elapse 1; Leave] w = (Raised e, w) /\
            (euid bare_env = 0 -> exists msg, e = FileNotFoundError msg).
Proof.
  split; [ repeat split | ].
  apply (unresolved_daemon_aborts_untouched bare_env default_args); reflexivity.
Defined.

(** ** ReadinessWaiter: the bounded poll *)

Section Readiness.

Local Open Scope Q_scope.

Variable env : environment.
Variable state_dir : string.
Variable names : list string.








End Readiness.

Example wait_all_stops_early :
  wait_all stubborn_env "/tmp/ndn-mn" node_names enough_polls (boot ∅ 0)
  = (Ok (Some []), after_sleeps stubborn_env 1 (boot ∅ 0)).
Proof. vm_compute. reflexivity. Qed.


(** ** Lifecycle: [stop] and [cleanup] *)

Section Cleanup.

Variable env : environment.

Lemma keeps_control_refl w : keeps_control w w.
Proof. repeat split. Qed.

Lemma keeps_control_trans w1 w2 w3 :
  keeps_control w1 w2 -> keeps_control w2 w3 -> keeps_control w1 w3.
Proof.
  unfold keeps_control. intros (?&?&?&?&?&?&?&?) (?&?&?&?&?&?&?&?).
  repeat split; congruence.
Qed.

Lemma stop_runs name proc w :
  exists w',
    stop name proc w = (Ok tt, w') /\
    procs w' = dict_pop name (procs w) /\
    procops w' = (procops w ++ stop_ops (name, proc))%list /\
    fs w' = (if exits_tidily proc then delete (p_sock proc) (fs w) else fs w) /\
    keeps_control w w'.
Proof.
  destruct proc as [c s [tr ex kr ti]].
  destruct tr, ex, kr, ti;
    (eexists; split; [ reflexivity | ];
     split; [ reflexivity | ];
     split; [ simpl; rewrite <- ?app_assoc; reflexivity | ];
     split; [ reflexivity | repeat split ]).
Qed.

Lemma dict_pop_elem {V} k (d : list (string * V)) kv :
  kv ∈ dict_pop k d <-> kv ∈ d /\ fst kv <> k.
Proof.
  unfold dict_pop. rewrite list_elem_of_In, filter_In, <- list_elem_of_In.
  destruct (String.eqb_spec (fst kv) k); simpl; intuition congruence.
Qed.

(** The loop of [cleanup] over a snapshot [items] of the table. *)
Lemma stop_each_runs items : forall w,
  exists w',
    for_each items (fun item => stop (fst item) (snd item)) w = (Ok tt, w') /\
    (forall kv, kv ∈ procs w' <-> kv ∈ procs w /\ fst kv ∉ map fst items) /\
    procops w' = (procops w ++ flat_map stop_ops items)%list /\
    (forall path,
       (forall item, item ∈ items -> exits_tidily (snd item) = true ->
                     p_sock (snd item) <> path) ->
       fs w' !! path = fs w !! path) /\
    (forall path, is_Some (fs w' !! path) -> is_Some (fs w !! path)) /\
    keeps_control w w'.
Proof.
  induction items as [| [name proc] items IH]; intros w.
  - exists w. split; [ reflexivity | ].
    split; [ intros kv; simpl; rewrite elem_of_nil; tauto | ].
    split; [ simpl; now rewrite app_nil_r | ].
    split; [ reflexivity | ].
    split; [ tauto | apply keeps_control_refl ].
  - destruct (stop_runs name proc w) as (w1 & Hrun & Hprocs & Hops & Hfs & Hctl).
    destruct (IH w1) as (w2 & Hrun2 & Hprocs2 & Hops2 & Hfs2 & Hin2 & Hctl2).
    exists w2.
    split.
    { simpl for_each. unfold bind at 1. simpl fst; simpl snd.
      rewrite Hrun. exact Hrun2. }
    split.
    { intros kv. rewrite Hprocs2, Hprocs, dict_pop_elem. simpl map.
      rewrite not_elem_of_cons. tauto. }
    split.
    { rewrite Hops2, Hops. simpl flat_map. now rewrite <- app_assoc. }
    split.
    { intros path Hpath. rewrite Hfs2.
      - rewrite Hfs. destruct (exits_tidily proc) eqn:Ht; [ | reflexivity ].
        apply lookup_delete_ne.
        apply (Hpath (name, proc)); [ apply list_elem_of_here | exact Ht ].
      - intros item Hitem. apply Hpath. now apply list_elem_of_further. }
    split.
    { intros path Hsome. apply Hin2 in Hsome. rewrite Hfs in Hsome.
      destruct (exits_tidily proc); [ | exact Hsome ].
      destruct Hsome as [x Hx]. apply lookup_delete_Some in Hx as [_ Hx]. now exists x. }
    eapply keeps_control_trans; eassumption.
Qed.

Lemma net_stop_swallowed w :
  exists w',
    try_except (net_stop env) is_Exception (ret tt) w = (Ok tt, w') /\
    procs w' = procs w /\ procops w' = procops w /\ fs w' = fs w /\
    keeps_control w w'.
Proof.
  unfold try_except, net_stop, bind, gets, modify, ret, raise.
  destruct (stop_raises env (stop_calls (net w)));
    (eexists; split; [ reflexivity | repeat split ]).
Qed.

Lemma cleanup_runs w :
  exists w',
    cleanup env w = (Ok tt, w') /\
    procs w' = [] /\
    procops w' = (procops w ++ flat_map stop_ops (procs w))%list /\
    (forall path,
       (forall item, item ∈ procs w -> exits_tidily (snd item) = true ->
                     p_sock (snd item) <> path) ->
       fs w' !! path = fs w !! path) /\
    (forall path, is_Some (fs w' !! path) -> is_Some (fs w !! path)) /\
    keeps_control w w'.
Proof.
  destruct (stop_each_runs (procs w) w)
    as (w1 & Hrun & Hprocs & Hops & Hfs & Hin & Hctl).
  destruct (net_stop_swallowed w1) as (w2 & Hrun2 & Hprocs2 & Hops2 & Hfs2 & Hctl2).
  exists w2.
  split.
  { unfold cleanup, bind at 1, gets. unfold bind at 1. rewrite Hrun. exact Hrun2. }
  split.
  { rewrite Hprocs2. destruct (procs w1) as [| kv rest] eqn:E; [ reflexivity | ].
    exfalso. destruct (Hprocs kv) as [H _].
    destruct H as [Hkv Hnot]; [ apply list_elem_of_here | ].
    apply Hnot. apply list_elem_of_fmap. now exists kv. }
  split; [ now rewrite Hops2 | ].
  split; [ intros path Hpath; rewrite Hfs2; now apply Hfs | ].
  split; [ intros path; rewrite Hfs2; apply Hin | ].
  eapply keeps_control_trans; eassumption.
Qed.

End Cleanup.

(** C8 (amended): [cleanup] always returns normally and empties the process
    table, and so does a second [cleanup] right after it, which signals
    nothing and changes no file.  Every tracked process gets SIGTERM; it is
    killed when the signal or the two-second wait raises; it leaves the table
    whatever happened.  [cleanup] itself removes no path: a control socket
    disappears only if its daemon exited on SIGTERM and removed it. *)
Theorem cleanup_twice (env : environment) (w : world) :
  exists w1 w2,
    cleanup env w = (Ok tt, w1) /\
    cleanup env w1 = (Ok tt, w2) /\
    procs w1 = [] /\ procs w2 = [] /\
    procops w1 = (procops w ++ flat_map stop_ops (procs w))%list /\
    procops w2 = procops w1 /\
    fs w2 = fs w1 /\
    (forall path,
       (forall item, item ∈ procs w -> exits_tidily (snd item) = true ->
                     p_sock (snd item) <> path) ->
       fs w1 !! path = fs w !! path) /\
    (forall path, is_Some (fs w1 !! path) -> is_Some (fs w !! path)).
Proof.
  destruct (cleanup_runs env w) as (w1 & Hrun1 & Hprocs1 & Hops1 & Hfs1 & Hin1 & _).
  destruct (cleanup_runs env w1) as (w2 & Hrun2 & Hprocs2 & Hops2 & Hfs2 & _ & _).
  exists w1, w2.
  split; [ exact Hrun1 | ]. split; [ exact Hrun2 | ].
  split; [ exact Hprocs1 | ]. split; [ exact Hprocs2 | ].
  split; [ exact Hops1 | ].
  split; [ rewrite Hops2, Hprocs1; simpl; now rewrite app_nil_r | ].
  split; [ | split; [ exact Hfs1 | exact Hin1 ] ].
  apply map_eq. intros path. apply Hfs2.
  intros item Hitem. rewrite Hprocs1 in Hitem. now apply elem_of_nil in Hitem.
Qed.

(** A run that ends with [cleanup], followed by a second [cleanup]: the
    table is empty, no call raised, and the control sockets are still
    there. *)
Lemma cleanup_leaves_sockets :
  let run := main stubborn_env default_args [Leave] (boot ∅ 0) in
  let again := cleanup stubborn_env (snd run) in
  fst run = Returned /\
  fst again = Ok tt /\
  procs (snd again) = [] /\
  procops (snd again)
    = [("g1", SIGTERM); ("g1", WaitFor 2); ("g1", SIGKILL);
       ("g2", SIGTERM); ("g2", WaitFor 2); ("g2", SIGKILL);
       ("s1", SIGTERM); ("s1", WaitFor 2); ("s1", SIGKILL);
       ("s2", SIGTERM); ("s2", WaitFor 2); ("s2", SIGKILL);
       ("s3", SIGTERM); ("s3", WaitFor 2); ("s3", SIGKILL)] /\
  map (fun n => fs (snd again) !! sock_of "/tmp/ndn-mn" n) node_names
    = [Some Socket; Some Socket; Some Socket; Some Socket; Some Socket].
Proof. vm_compute. repeat split. Qed.

(** ** Statements that leave the control plane alone *)

Section Frames.

Lemma frames_ret {A} (a : A) : frames (ret a).
Proof. intros w. now split. Qed.

Lemma frames_raise {A} (e : exn) : is_Exception e = true -> frames (@raise A e).
Proof. intros He w. now split. Qed.

Lemma frames_ok {A} (a : A) : frames (lift (Ok a)).
Proof. intros w. now split. Qed.

Lemma frames_gets {A} (f : world -> A) : frames (gets f).
Proof. intros w. now split. Qed.

Lemma frames_bind {A B} (c : M A) (k : A -> M B) :
  frames c -> (forall a, frames (k a)) -> frames (bind c k).
Proof.
  intros Hc Hk w. unfold bind. destruct (Hc w) as [Hctl Hexn].
  destruct (c w) as [[a | e] w1]; simpl in *.
  - destruct (Hk a w1) as [Hctl' Hexn']. split; [ congruence | exact Hexn' ].
  - now split.
Qed.

Lemma frames_try_except {A} (c h : M A) (handles : exn -> bool) :
  frames c -> frames h -> frames (try_except c handles h).
Proof.
  intros Hc Hh w. unfold try_except. destruct (Hc w) as [Hctl Hexn].
  destruct (c w) as [[a | e] w1]; simpl in *; [ now split | ].
  destruct (handles e); simpl; [ | now split ].
  destruct (Hh w1) as [Hctl' Hexn']. split; [ congruence | exact Hexn' ].
Qed.

Lemma frames_for_each {A} (l : list A) (body : A -> M unit) :
  (forall x, frames (body x)) -> frames (for_each l body).
Proof.
  intros Hbody. induction l as [| x l IH]; simpl.
  - apply frames_ret.
  - apply frames_bind; [ apply Hbody | intros _; exact IH ].
Qed.

Lemma frames_if {A} (b : bool) (c1 c2 : M A) :
  frames c1 -> frames c2 -> frames (if b then c1 else c2).
Proof. now destruct b. Qed.

Lemma frames_set_fs f : frames (modify (set_fs f)).
Proof. intros w. now split. Qed.

Lemma frames_set_procs f : frames (modify (set_procs f)).
Proof. intros w. now split. Qed.

Lemma frames_add_procop name o : frames (modify (add_procop name o)).
Proof. intros w. now split. Qed.

Lemma handovers_add_log m w :
  handovers (add_log m w)
  = (handovers w + if is_handover_line m then 1 else 0)%nat.
Proof.
  unfold handovers. simpl. rewrite List.filter_app, length_app. simpl.
  now destruct (is_handover_line m).
Qed.

Lemma frames_add_log m : is_handover_line m = false -> frames (modify (add_log m)).
Proof.
  intros Hm w. split; [ | exact I ]. unfold control. simpl snd.
  rewrite handovers_add_log, Hm, Nat.add_0_r. reflexivity.
Qed.

Lemma frames_time_sleep env d : frames (time_sleep env d).
Proof. intros w. now split. Qed.

Lemma control_eq w w' :
  control w' = control w ->
  net w' = net w /\ links w' = links w /\ cmds w' = cmds w /\
  handovers w' = handovers w.
Proof. unfold control. intros [= -> -> -> ->]. repeat split. Qed.

(** What a framing statement tells about one run of it. *)
Lemma frames_run {A} (c : M A) w r w' :
  frames c -> c w = (r, w') ->
  net w' = net w /\ links w' = links w /\ cmds w' = cmds w /\
  handovers w' = handovers w /\
  (forall e, r = Raise e -> is_Exception e = true).
Proof.
  intros Hc Hrun. destruct (Hc w) as [Hctl Hexn]. rewrite Hrun in Hctl, Hexn.
  apply control_eq in Hctl as (? & ? & ? & ?). repeat split; try assumption.
  intros e ->. exact Hexn.
Qed.

End Frames.

Create HintDb frames.
#[local] Hint Resolve frames_ret frames_ok frames_gets
  frames_set_fs frames_set_procs frames_add_procop frames_time_sleep : frames.

Ltac frame :=
  repeat first
    [ solve [ auto with frames ]
    | apply frames_add_log; reflexivity
    | apply frames_raise; reflexivity
    | apply frames_bind; [ | intros ? ]
    | apply frames_try_except
    | apply frames_for_each; intros ?
    | apply frames_if
    | match goal with |- frames (match ?x with _ => _ end) => destruct x end ].

Section FramedPhases.

Variable env : environment.
Variable args : arguments.

Lemma frames_find_ndnd explicit repo_root :
  frames (_find_ndnd env explicit repo_root).
Proof. unfold _find_ndnd, path_exists. frame. Qed.

#[local] Hint Resolve frames_find_ndnd : frames.

Lemma frames_preflight : frames (preflight env args).
Proof.
  unfold preflight, _ensure_root, os_makedirs, _write_host_wrapper.
  frame.
Qed.

Lemma frames_start_daemon state_dir ndnd_bin name :
  frames (start_daemon env args state_dir ndnd_bin name).
Proof.
  unfold start_daemon, os_unlink, _write_combined_conf, popen_on, nodes_get.
  frame.
Qed.

Lemma frames_wait_loop state_dir names deadline fuel : forall missing,
  frames (wait_loop env state_dir names deadline missing fuel).
Proof.
  induction fuel as [| fuel IH]; intros missing; simpl.
  - apply frames_ret.
  - unfold time_time, missing_sockets.
    apply frames_bind; [ auto with frames | intros now ].
    apply frames_if; [ | auto with frames ].
    apply frames_bind; [ auto with frames | intros found ].
    apply frames_if; [ auto with frames | ].
    apply frames_bind; [ auto with frames | intros _; apply IH ].
Qed.

Lemma frames_wait_all state_dir names fuel :
  frames (wait_all env state_dir names fuel).
Proof.
  unfold wait_all, time_time.
  apply frames_bind; [ auto with frames | intros now; apply frames_wait_loop ].
Qed.

End FramedPhases.

(** ** TopologyBuilder, NeighborLinker and HandoverScheduler, run *)

Section Topology.

Variable args : arguments.
Variable wrapper_path : string.

Lemma build_topology_runs w :
  build_topology args w = (Ok tt, built args w).
Proof. reflexivity. Qed.

Lemma initial_linking_runs w :
  links w = built_links ->
  exists w',
    initial_linking args wrapper_path w = (Ok tt, w') /\
    net w' = net w /\ links w' = links w /\ logs w' = logs w /\
    cmds w' = (cmds w
               ++ neighbour_cmds wrapper_path (args_udp_port args) initial_set)%list.
Proof.
  destruct w as [f t c n ls i ps cs os lg]. simpl. intros ->.
  eexists. split; [ reflexivity | ].
  repeat split. simpl. rewrite <- !app_assoc. reflexivity.
Qed.

Lemma handover_runs w :
  links w = built_links -> net w = steady_net args ->
  exists w',
    handover args wrapper_path w = (Ok tt, w') /\
    net w' = switched_net args /\ links w' = links w /\
    handovers w' = S (handovers w) /\
    cmds w' = (cmds w
               ++ neighbour_cmds wrapper_path (args_udp_port args) handover_set)%list.
Proof.
  destruct w as [f t c n ls i ps cs os lg]. simpl. intros -> ->.
  eexists. split; [ reflexivity | ].
  split; [ reflexivity | ]. split; [ reflexivity | ].
  split.
  - unfold handovers. simpl. rewrite List.filter_app, length_app. simpl. lia.
  - simpl. rewrite <- !app_assoc. reflexivity.
Qed.

End Topology.

(** ** The blocking phase *)

Section Blocking.

Variable args : arguments.
Variable wrapper_path : string.

(** Without a handover thread nothing but the clock moves, and the
    blocking call can only go on, return or be interrupted. *)
Lemma block_unarmed timeline : forall w r w',
  block args wrapper_path None timeline w = (r, w') ->
  control w' = control w /\
  (r = Ok false \/ r = Ok true \/ r = Raise KeyboardInterrupt).
Proof.
  induction timeline as [| [dt |] rest IH]; intros w r w' Hblock.
  - injection Hblock as <- <-. split; [ reflexivity | now left ].
  - simpl block in Hblock. unfold bind at 1, modify in Hblock.
    apply IH in Hblock as [Hctl Hr]. split; [ exact Hctl | exact Hr ].
  - simpl in Hblock. destruct (args_cli args); injection Hblock as <- <-;
      (split; [ reflexivity | tauto ]).
Qed.

(** The world during and after the blocking phase is the steady one or
    the switched one, the latter after exactly one handover. *)
Lemma block_steady_or_switched timeline : forall timer w r w',
  links w = built_links -> net w = steady_net args ->
  block args wrapper_path timer timeline w = (r, w') ->
  links w' = built_links /\
  (net w' = steady_net args /\ cmds w' = cmds w /\ handovers w' = handovers w
   \/ is_Some timer /\ net w' = switched_net args /\
      handovers w' = S (handovers w) /\
      cmds w' = (cmds w ++ neighbour_cmds wrapper_path (args_udp_port args)
                                          handover_set)%list).
Proof.
  induction timeline as [| [dt |] rest IH]; intros timer w r w' Hl Hn Hblock.
  - injection Hblock as <- <-. split; [ exact Hl | left; repeat split; exact Hn ].
  - simpl block in Hblock. unfold bind at 1, modify in Hblock.
    set (w0 := set_time (ticks w) (clock w + dt)%Q w) in Hblock.
    assert (Hl0 : links w0 = built_links) by exact Hl.
    assert (Hn0 : net w0 = steady_net args) by exact Hn.
    destruct timer as [remaining |].
    + destruct (Qle_bool remaining dt).
      * destruct (handover_runs args wrapper_path w0 Hl0 Hn0)
          as (w1 & Hrun & Hn1 & Hl1 & Hh1 & Hc1).
        unfold bind at 1 in Hblock. rewrite Hrun in Hblock.
        apply block_unarmed in Hblock as [Hf _].
        apply control_eq in Hf as (Hfn & Hfl & Hfc & Hfh).
        split; [ now rewrite Hfl, Hl1 | right ].
        split; [ now exists remaining | ].
        split; [ now rewrite Hfn | ].
        split; [ now rewrite Hfh, Hh1 | now rewrite Hfc, Hc1 ].
      * destruct (IH _ _ _ _ Hl0 Hn0 Hblock) as [Hl' Hcases].
        split; [ exact Hl' | ].
        destruct Hcases as [Hst | (_ & Hsw)]; [ now left | right ].
        split; [ now exists remaining | exact Hsw ].
    + destruct (IH _ _ _ _ Hl0 Hn0 Hblock) as [Hl' Hcases].
      split; [ exact Hl' | ].
      destruct Hcases as [Hst | ([x Hx] & _)]; [ now left | discriminate Hx ].
  - simpl in Hblock. destruct (args_cli args); injection Hblock as <- <-;
      (split; [ exact Hl | left; repeat split; exact Hn ]).
Qed.



Lemma block_result timeline : forall timer w r w',
  links w = built_links -> net w = steady_net args ->
  block args wrapper_path timer timeline w = (r, w') ->
  r = Ok false \/ r = Ok true \/ r = Raise KeyboardInterrupt.
Proof.
  induction timeline as [| [dt |] rest IH]; intros timer w r w' Hl Hn Hblock.
  - injection Hblock as <- <-. now left.
  - simpl block in Hblock. unfold bind at 1, modify in Hblock.
    set (w0 := set_time (ticks w) (clock w + dt)%Q w) in Hblock.
    assert (Hl0 : links w0 = built_links) by exact Hl.
    assert (Hn0 : net w0 = steady_net args) by exact Hn.
    destruct timer as [remaining |]; [ destruct (Qle_bool remaining dt) | ].
    + destruct (handover_runs args wrapper_path w0 Hl0 Hn0) as (w1 & Hrun & _).
      unfold bind at 1 in Hblock. rewrite Hrun in Hblock.
      now apply block_unarmed in Hblock as [_ Hr].
    + exact (IH _ _ _ _ Hl0 Hn0 Hblock).
    + exact (IH _ _ _ _ Hl0 Hn0 Hblock).
  - simpl in Hblock. destruct (args_cli args); injection Hblock as <- <-; tauto.
Qed.

End Blocking.

(** ** The whole run *)

Section Run.

Variable env : environment.
Variable args : arguments.

Lemma preflight_returns w ndnd_bin state_dir wrapper_path w0 :
  preflight env args w = (Ok (ndnd_bin, state_dir, wrapper_path), w0) ->
  state_dir = abspath env (args_state_dir args) /\
  wrapper_path = wrapper_of env args.
Proof.
  unfold preflight. unfold bind at 1.
  destruct (_ensure_root env w) as [[[] | e] wa]; [ | discriminate ].
  unfold bind at 1.
  destruct (_find_ndnd env _ _ wa) as [[nb | e] wb]; [ | discriminate ].
  unfold bind at 1.
  destruct (os_makedirs _ wb) as [[[] | e] wc]; [ | discriminate ].
  unfold bind at 1.
  destruct (_write_host_wrapper _ _ _ wc) as [[[] | e] wd]; [ | discriminate ].
  unfold ret. intros [= <- <- <- <-]. split; reflexivity.
Qed.

(** [startup] leaves the steady topology as built, says nothing about a
    handover, and issues the initial neighbour commands if it gets that
    far. *)
Lemma startup_runs ndnd_bin state_dir wrapper_path w r w2 :
  links w = built_links -> net w = steady_net args ->
  startup env args ndnd_bin state_dir wrapper_path w = (r, w2) ->
  links w2 = built_links /\ net w2 = steady_net args /\
  handovers w2 = handovers w /\
  match r with
  | Ok timer =>
      timer = armed args /\
      cmds w2 = (cmds w ++ neighbour_cmds wrapper_path (args_udp_port args)
                                          initial_set)%list
  | Raise e => is_Exception e = true
  end.
Proof.
  intros Hl Hn. unfold startup. unfold bind at 1.
  destruct (for_each node_names (start_daemon env args state_dir ndnd_bin) w)
    as [[[] | e] wa] eqn:E1;
    apply (frames_run _ _ _ _
             (frames_for_each _ _ (frames_start_daemon env args state_dir ndnd_bin)))
      in E1 as (Hn1 & Hl1 & Hc1 & Hh1 & Hx1).
  2: { intros [= <- <-].
       split; [ now rewrite Hl1 | split; [ now rewrite Hn1 | split; [ exact Hh1 | ] ] ].
       now apply Hx1. }
  unfold bind at 1.
  destruct (wait_all env state_dir node_names enough_polls wa)
    as [[waited | e] wb] eqn:E2;
    apply (frames_run _ _ _ _ (frames_wait_all env state_dir node_names enough_polls))
      in E2 as (Hn2 & Hl2 & Hc2 & Hh2 & Hx2).
  2: { intros [= <- <-].
       split; [ now rewrite Hl2, Hl1 | ].
       split; [ now rewrite Hn2, Hn1 | ].
       split; [ now rewrite Hh2 | now apply Hx2 ]. }
  cbv zeta. unfold bind at 1.
  set (warn := if negb (is_empty (default [] waited))
               then modify (add_log (WarnNotReady (default [] waited)))
               else ret tt).
  assert (Fw : frames warn) by (unfold warn; frame).
  destruct (warn wb) as [[[] | e] wc] eqn:E3;
    apply (frames_run _ _ _ _ Fw) in E3 as (Hn3 & Hl3 & Hc3 & Hh3 & Hx3).
  2: { intros [= <- <-].
       split; [ now rewrite Hl3, Hl2, Hl1 | ].
       split; [ now rewrite Hn3, Hn2, Hn1 | ].
       split; [ now rewrite Hh3, Hh2 | now apply Hx3 ]. }
  destruct (initial_linking_runs args wrapper_path wc)
    as (wd & Hrun & Hn4 & Hl4 & Hg4 & Hc4); [ now rewrite Hl3, Hl2, Hl1 | ].
  unfold bind at 1. rewrite Hrun.
  assert (Hh4 : handovers wd = handovers w).
  { unfold handovers at 1. rewrite Hg4. fold (handovers wc).
    now rewrite Hh3, Hh2. }
  assert (Hl5 : links wd = built_links) by now rewrite Hl4, Hl3, Hl2, Hl1.
  assert (Hn5 : net wd = steady_net args) by now rewrite Hn4, Hn3, Hn2, Hn1.
  assert (Hc5 : cmds wd = (cmds w ++ neighbour_cmds wrapper_path (args_udp_port args)
                                                    initial_set)%list)
    by now rewrite Hc4, Hc3, Hc2, Hc1.
  unfold bind, modify, ret. fold (armed args).
  destruct (args_cli args); intros [= <- <-];
    (split; [ exact Hl5 | ];
     split; [ exact Hn5 | ];
     split; [ rewrite ?handovers_add_log; simpl; lia | ];
     split; [ reflexivity | exact Hc5 ]).
Qed.

Lemma cleanup_keeps_handovers w r w' :
  cleanup env w = (r, w') -> r = Ok tt /\ handovers w' = handovers w.
Proof.
  destruct (cleanup_runs env w) as (w1 & Hrun & _ & _ & _ & _ & Hctl).
  rewrite Hrun. intros [= <- <-]. split; [ reflexivity | ].
  destruct Hctl as (_ & _ & _ & _ & Hlogs & _). unfold handovers. now rewrite Hlogs.
Qed.

(** A run of a fresh process either raises before it blocks, without any
    handover, or reaches the blocking phase in the steady world with the
    initial neighbour commands issued; it is then still blocked, or has
    returned through [cleanup]. *)
Lemma main_cases timeline files now out w' :
  main env args timeline (boot files now) = (out, w') ->
  (exists e, out = Raised e /\ handovers w' = 0%nat)
  \/ exists w2 r w3,
       links w2 = built_links /\ net w2 = steady_net args /\
       handovers w2 = 0%nat /\
       cmds w2 = neighbour_cmds (wrapper_of env args) (args_udp_port args) initial_set /\
       block args (wrapper_of env args) (armed args) timeline w2 = (r, w3) /\
       (r = Ok false /\ out = Running /\ w' = w3
        \/ r <> Ok false /\ out = Returned /\ handovers w' = handovers w3).
Proof.
  unfold main. unfold bind at 1.
  destruct (preflight env args (boot files now))
    as [[[[nb sd] wp] | e] w0] eqn:Epre.
  2: { intros [= <- <-]. left. exists e. split; [ reflexivity | ].
       apply (frames_run _ _ _ _ (frames_preflight env args)) in Epre
         as (_ & _ & _ & Hh & _).
       exact Hh. }
  destruct (preflight_returns _ _ _ _ _ Epre) as [-> ->].
  apply (frames_run _ _ _ _ (frames_preflight env args)) in Epre
    as (_ & _ & Hc0 & Hh0 & _).
  unfold bind at 1. rewrite build_topology_runs. unfold ret at 1.
  unfold guarded. unfold bind at 1.
  destruct (startup env args nb _ _ (built args w0)) as [[timer | e] w2] eqn:Est;
    apply startup_runs in Est as (Hl2 & Hn2 & Hh2 & Hr); try reflexivity.
  - destruct Hr as [-> Hc2].
    destruct (block args (wrapper_of env args) (armed args) timeline w2)
      as [r w3] eqn:Eb.
    pose proof (block_result _ _ _ _ _ _ _ Hl2 Hn2 Eb) as Hcases.
    intros Hout. right. exists w2, r, w3.
    split; [ exact Hl2 | ]. split; [ exact Hn2 | ].
    split; [ rewrite Hh2; exact Hh0 | ].
    split; [ rewrite Hc2; simpl cmds; rewrite Hc0; reflexivity | ].
    split; [ exact Eb | ].
    destruct Hcases as [-> | [-> | ->]].
    + left. injection Hout as <- <-. repeat split.
    + right. unfold try_finally, try_except, lift in Hout.
      destruct (cleanup env w3) as [rc w4] eqn:Ec.
      apply cleanup_keeps_handovers in Ec as [-> Hh4].
      injection Hout as <- <-. split; [ discriminate | now split ].
    + right. unfold try_finally, try_except, lift in Hout. simpl in Hout.
      unfold ret in Hout.
      destruct (cleanup env w3) as [rc w4] eqn:Ec.
      apply cleanup_keeps_handovers in Ec as [-> Hh4].
      injection Hout as <- <-. split; [ discriminate | now split ].
  - intros Hout. left.
    unfold try_finally, try_except, lift in Hout.
    assert (Hki : is_KeyboardInterrupt e = false) by now destruct e.
    rewrite Hki in Hout.
    destruct (cleanup env w2) as [rc w4] eqn:Ec.
    apply cleanup_keeps_handovers in Ec as [-> Hh4].
    injection Hout as <- <-. exists e. split; [ reflexivity | ].
    rewrite Hh4, Hh2. exact Hh0.
Qed.

End Run.

(** ** Whole runs *)

Lemma steady_net_is_steady args w :
  links w = built_links -> net w = steady_net args -> steady_state w.
Proof.
  intros Hl Hn. unfold steady_state, access_report, attached, candidates, link_status.
  rewrite Hl, Hn. repeat split.
Qed.

Lemma switched_net_is_switched args w :
  links w = built_links -> net w = switched_net args -> switched_state w.
Proof.
  intros Hl Hn. unfold switched_state, access_report, attached, candidates, link_status.
  rewrite Hl, Hn. repeat split.
Qed.

(** C1: right after the topology is built g1 is attached to s1 only and g2
    to s3 only; the handover leaves g1 attached to s2 only and g2 to s2
    only; and whenever a run is observed blocked, it is in the first state if
    no handover has run and in the second if one has. *)
Theorem one_access_link_up (env : environment) (args : arguments) :
  (forall wrapper_path w, exists w1 w2,
     build_topology args w = (Ok tt, w1) /\ steady_state w1 /\
     handover args wrapper_path w1 = (Ok tt, w2) /\ switched_state w2) /\
  (forall timeline files now w',
     main env args timeline (boot files now) = (Running, w') ->
     handovers w' = 0%nat /\ steady_state w'
     \/ handovers w' = 1%nat /\ switched_state w').
Proof.
  split.
  - intros wrapper_path w.
    destruct (handover_runs args wrapper_path (built args w))
      as (w2 & Hrun & Hn2 & Hl2 & _); [ reflexivity | reflexivity | ].
    exists (built args w), w2.
    split; [ apply build_topology_runs | ].
    split; [ now apply (steady_net_is_steady args) | ].
    split; [ exact Hrun | now apply (switched_net_is_switched args) ].
  - intros timeline files now w' Hmain.
    apply main_cases in Hmain as [(e & He & _) | (w2 & r & w3 & Hl & Hn & Hh & _ & Hb & Hout)];
      [ discriminate He | ].
    destruct Hout as [(-> & _ & ->) | (_ & Hret & _)]; [ | discriminate Hret ].
    apply block_steady_or_switched in Hb as [Hl3 Hcases]; try assumption.
    destruct Hcases as [(Hn3 & _ & Hh3) | (_ & Hn3 & Hh3 & _)].
    + left. split; [ now rewrite Hh3 | now apply (steady_net_is_steady args) ].
    + right. split; [ now rewrite Hh3, Hh | now apply (switched_net_is_switched args) ].
Qed.

Lemma one_access_link_up_witness :
  let run := main stubborn_env (handover_args 5) [Elapse 2; Elapse 4] (boot ∅ 0) in
  run = (Running, snd run) /\
  (handovers (snd run) = 0%nat /\ steady_state (snd run)
   \/ handovers (snd run) = 1%nat /\ switched_state (snd run)).
Proof.
  cbv zeta.
  assert (H : main stubborn_env (handover_args 5) [Elapse 2; Elapse 4] (boot ∅ 0)
              = (Running,
                 snd (main stubborn_env (handover_args 5) [Elapse 2; Elapse 4] (boot ∅ 0))))
    by (vm_compute; reflexivity).
  split; [ exact H | ].
  destruct (one_access_link_up stubborn_env (handover_args 5)) as [_ Hrun].
  exact (Hrun _ _ _ _ H).
Defined.






(* ================================================================== *)
(** * Further properties of the script *)

(** ** Resolving the daemon binary *)

(** An explicit path decides alone: it is made absolute if it is not, and
    the result is that path if something exists there and an error naming it
    otherwise; neither the search path nor the conventional build location is
    consulted, and nothing is changed. *)
Theorem find_ndnd_explicit env (p0 repo_root : string) w :
  p0 <> EmptyString ->
  let p := if isabs p0 then p0 else abspath env p0 in
  _find_ndnd env (Some p0) repo_root w
  = (if bool_decide (is_Some (fs w !! p)) then Ok p
     else Raise (FileNotFoundError ("--ndnd not found: " +:+ p)), w).
Proof.
  intros Hp. cbv zeta. unfold _find_ndnd.
  assert (Ht : truthy (Some p0) = true).
  { simpl. destruct (String.eqb_spec p0 EmptyString); [ contradiction | reflexivity ]. }
  rewrite Ht. simpl default.
  destruct (isabs p0); simpl negb; cbv iota;
    unfold bind, path_exists, gets;
    match goal with |- context [bool_decide ?P] => destruct (bool_decide P) end;
    reflexivity.
Qed.

Lemma find_ndnd_explicit_witness :
  "build/ndnd" <> EmptyString /\
  _find_ndnd stubborn_env (Some "build/ndnd") "/repo" (boot ∅ 0)
  = (Raise (FileNotFoundError "--ndnd not found: build/ndnd"), boot ∅ 0).
Proof.
  split; [ discriminate | ].
  rewrite (find_ndnd_explicit stubborn_env "build/ndnd" "/repo" (boot ∅ 0))
    by discriminate.
  reflexivity.
Defined.

(** Without an explicit path (none, or an empty one) the search path comes
    first and is trusted without a look at the file system; only when it
    yields nothing is the conventional build location tried, and that one
    must exist. *)
Theorem find_ndnd_fallback env (explicit : option string) (repo_root : string) w :
  truthy explicit = false ->
  (forall p, which_ndnd env = Some p -> p <> EmptyString ->
     _find_ndnd env explicit repo_root w = (Ok p, w)) /\
  (truthy (which_ndnd env) = false ->
     let p := path_join (path_join repo_root "ndnd") "ndnd" in
     (is_Some (fs w !! p) -> _find_ndnd env explicit repo_root w = (Ok p, w)) /\
     (fs w !! p = None ->
        exists msg, _find_ndnd env explicit repo_root w
                    = (Raise (FileNotFoundError msg), w))).
Proof.
  intros He. unfold _find_ndnd. rewrite He. split.
  - intros p Hw Hp. rewrite Hw.
    assert (Ht : truthy (Some p) = true).
    { simpl. destruct (String.eqb_spec p EmptyString); [ contradiction | reflexivity ]. }
    now rewrite Ht.
  - intros Hw. rewrite Hw. cbv zeta. unfold bind, path_exists, gets. split.
    + intros Hs. now rewrite bool_decide_eq_true_2.
    + intros Hn. rewrite Hn.
      rewrite bool_decide_eq_false_2 by (intros [x Hx]; discriminate Hx).
      eexists. reflexivity.
Qed.

Lemma find_ndnd_fallback_witness :
  truthy (Some EmptyString) = false /\
  _find_ndnd stubborn_env (Some EmptyString) "/repo" (boot ∅ 0)
  = (Ok "/usr/bin/ndnd", boot ∅ 0).
Proof.
  split; [ reflexivity | ].
  destruct (find_ndnd_fallback stubborn_env (Some EmptyString) "/repo" (boot ∅ 0))
    as [Hwhich _]; [ reflexivity | ].
  apply Hwhich; [ reflexivity | discriminate ].
Defined.

Lemma probe_cases env (p : string) (k : bool -> M string) w r w' :
  (do found <- path_exists p; k found) w = (r, w') ->
  k true = ret p -> (exists msg, k false = raise (FileNotFoundError msg)) ->
  w' = w /\
  (forall q, r = Ok q -> is_Some (fs w !! q) \/ which_ndnd env = Some q) /\
  (forall e, r = Raise e -> exists msg, e = FileNotFoundError msg).
Proof.
  intros Hrun Ht [msg Hf]. unfold bind, path_exists, gets in Hrun.
  destruct (bool_decide (is_Some (fs w !! p))) eqn:Hs.
  - apply bool_decide_eq_true in Hs. rewrite Ht in Hrun. injection Hrun as <- <-.
    split; [ reflexivity | split ]; [ intros q [= <-]; now left | intros e [=] ].
  - rewrite Hf in Hrun. injection Hrun as <- <-.
    split; [ reflexivity | split ]; [ intros q [=] | intros e [= <-]; now exists msg ].
Qed.


(** The search only reads: the world is the same afterwards, a path it
    returns exists or is the one the search path gave, and the only error it
    raises is [FileNotFoundError]. *)
Theorem find_ndnd_reads_only env (explicit : option string) (repo_root : string)
    w r w' :
  _find_ndnd env explicit repo_root w = (r, w') ->
  w' = w /\
  (forall p, r = Ok p -> is_Some (fs w !! p) \/ which_ndnd env = Some p) /\
  (forall e, r = Raise e -> exists msg, e = FileNotFoundError msg).
Proof.
  unfold _find_ndnd. destruct (truthy explicit).
  - cbv zeta. intros Hrun.
    eapply probe_cases; [ exact Hrun | reflexivity | eexists; reflexivity ].
  - cbv zeta. destruct (truthy (which_ndnd env)) eqn:Hw.
    + intros [= <- <-]. split; [ reflexivity | split ]; [ | intros e [=] ].
      intros q [= <-]. right.
      destruct (which_ndnd env) as [p |]; [ reflexivity | discriminate Hw ].
    + intros Hrun.
      eapply probe_cases; [ exact Hrun | reflexivity | eexists; reflexivity ].
Qed.

Lemma find_ndnd_reads_only_witness :
  let w := boot {[ "/opt/ndnd" := Regular ]} 0 in
  _find_ndnd bare_env (Some "/opt/ndnd") "/repo" w = (Ok "/opt/ndnd", w) /\
  (is_Some (fs w !! "/opt/ndnd") \/ which_ndnd bare_env = Some "/opt/ndnd").
Proof.
  cbv zeta.
  assert (H : _find_ndnd bare_env (Some "/opt/ndnd") "/repo"
                (boot {[ "/opt/ndnd" := Regular ]} 0)
              = (Ok "/opt/ndnd", boot {[ "/opt/ndnd" := Regular ]} 0))
    by (vm_compute; reflexivity).
  split; [ exact H | ].
  destruct (find_ndnd_reads_only _ _ _ _ _ _ H) as (_ & Hp & _).
  now apply Hp.
Defined.

(** ** The privilege check comes first *)

(** Without root the run raises [PermissionError] and touches nothing,
    whatever the arguments and whether or not the daemon binary could be
    found. *)
Theorem not_root_aborts_first env args timeline w :
  euid env <> 0 ->
  exists msg, main env args timeline w = (Raised (PermissionError msg), w).
Proof.
  intros Hroot. unfold main, preflight, _ensure_root.
  destruct (Z.eqb_spec (euid env) 0) as [H0 | _]; [ contradiction | ].
  eexists. reflexivity.
Qed.

Lemma not_root_aborts_first_witness :
  let env := mkEnv 1000 (Some "/usr/bin/ndnd") (fun p => p) "/repo/scripts"
                   (daemon stubborn_env) (background stubborn_env) (fun _ => false) in
  euid env <> 0 /\
  exists msg, main env default_args [Leave] (boot ∅ 0)
              = (Raised (PermissionError msg), boot ∅ 0).
Proof.
  cbv zeta. split; [ discriminate | ].
  apply not_root_aborts_first. discriminate.
Defined.

(** ** The range of the allocator *)

(** The fields of the address are octets exactly for the indices from 0 up
    to the capacity, negative indices included in the statement; and for
    every index the two host addresses differ from each other and from the
    base address of the block. *)
Theorem alloc_octets_iff (index : Z) :
  (0 <= octet3 index <= 255 /\ 0 <= octet4 index /\ octet4 index + 3 <= 255
   <-> 0 <= index < capacity) /\
  match _alloc_p2p_subnet index with
  | Ok (cidr, ip1, ip2) =>
      cidr = dotted (octet3 index) (octet4 index) +:+ "/30" /\
      ip1 <> ip2 /\
      ip1 <> dotted (octet3 index) (octet4 index) /\
      ip2 <> dotted (octet3 index) (octet4 index)
  | Raise _ => False
  end.
Proof.
  split.
  - unfold octet3, octet4, capacity.
    pose proof (Z.div_mod index 64). pose proof (Z.mod_pos_bound index 64).
    split; intros; lia.
  - unfold _alloc_p2p_subnet. split; [ reflexivity | ].
    repeat split; intros E; apply dotted_inj in E as [_ E]; lia.
Qed.

Example alloc_negative :
  _alloc_p2p_subnet (-1) = Ok ("10.0.-1.252/30", "10.0.-1.253", "10.0.-1.254").
Proof. reflexivity. Qed.

(** ** Adding a link *)

(** A kind other than "access" and "isl" is refused with [ValueError]: no
    link is created and none recorded, but the subnet counter has already
    moved on, so the block of that index is never used. *)
Theorem add_p2p_unknown_kind args (a b kind : string) w :
  kind <> "access" -> kind <> "isl" ->
  add_p2p args a b kind w
  = (Raise (ValueError ("unknown link kind: " +:+ kind)),
     set_subnet_idx (subnet_idx w + 1) w).
Proof.
  intros Ha Hi. unfold add_p2p.
  destruct (String.eqb_spec kind "access") as [E | _]; [ contradiction | ].
  destruct (String.eqb_spec kind "isl") as [E | _]; [ contradiction | ].
  reflexivity.
Qed.

Lemma add_p2p_unknown_kind_witness :
  ("uplink" <> "access" /\ "uplink" <> "isl") /\
  let r := add_p2p default_args "g1" "s1" "uplink" (built default_args (boot ∅ 0)) in
  fst r = Raise (ValueError "unknown link kind: uplink") /\
  subnet_idx (snd r) = 7 /\
  links (snd r) = built_links /\
  net (snd r) = steady_net default_args.
Proof.
  split; [ split; discriminate | ].
  cbv zeta.
  rewrite (add_p2p_unknown_kind default_args "g1" "s1" "uplink")
    by discriminate.
  repeat split.
Defined.

Lemma nodes_get_known name w :
  In name node_names -> nodes_get name w = (Ok name, w).
Proof.
  intros H. unfold nodes_get.
  rewrite bool_decide_eq_true_2 by now apply list_elem_of_In.
  reflexivity.
Qed.

Lemma add_p2p_runs args (a b kind : string) w :
  kind = "access" \/ kind = "isl" ->
  In a node_names -> In b node_names ->
  exists cidr a_ip b_ip,
    _alloc_p2p_subnet (subnet_idx w) = Ok (cidr, a_ip, b_ip) /\
    add_p2p args a b kind w
    = (Ok tt,
       set_links (fun ls => (ls ++ [mkRec a b a_ip b_ip cidr kind
                                          (length (tclinks (net w)))])%list)
         (set_net (fun n =>
            mkNet (hosts n)
                  (tclinks n ++ [mkLink a b (a_ip +:+ "/30") (b_ip +:+ "/30")
                                        (class_opts args kind) up])%list
                  (started n) (stop_calls n))
            (set_subnet_idx (subnet_idx w + 1) w))).
Proof.
  intros Hk Ha Hb.
  eexists _, _, _. split; [ reflexivity | ].
  pose proof (nodes_get_known a) as Hna. pose proof (nodes_get_known b) as Hnb.
  destruct Hk as [-> | ->];
    unfold add_p2p, _alloc_p2p_subnet, bind, gets, lift, modify, ret;
    cbv beta iota zeta;
    [ change (String.eqb "access" "access") with true
    | change (String.eqb "isl" "access") with false;
      change (String.eqb "isl" "isl") with true ];
    cbv beta iota;
    rewrite Hna by exact Ha; rewrite Hnb by exact Hb; reflexivity.
Qed.

(** A link of a known kind between known nodes: one record is appended to
    [links] and one link, up, to the substrate, with the addresses of the
    block of the current counter, and the counter moves on by one; files,
    processes, commands and log lines are left alone. *)
Theorem add_p2p_appends args (a b kind : string) w :
  kind = "access" \/ kind = "isl" ->
  In a node_names -> In b node_names ->
  exists cidr a_ip b_ip w',
    _alloc_p2p_subnet (subnet_idx w) = Ok (cidr, a_ip, b_ip) /\
    add_p2p args a b kind w = (Ok tt, w') /\
    links w' = (links w ++ [mkRec a b a_ip b_ip cidr kind
                                  (length (tclinks (net w)))])%list /\
    tclinks (net w')
    = (tclinks (net w) ++ [mkLink a b (a_ip +:+ "/30") (b_ip +:+ "/30")
                                  (class_opts args kind) up])%list /\
    subnet_idx w' = subnet_idx w + 1 /\
    hosts (net w') = hosts (net w) /\
    fs w' = fs w /\ procs w' = procs w /\ cmds w' = cmds w /\ logs w' = logs w.
Proof.
  intros Hk Ha Hb.
  destruct (add_p2p_runs args a b kind w Hk Ha Hb) as (cidr & a_ip & b_ip & Hal & Hrun).
  exists cidr, a_ip, b_ip. eexists. split; [ exact Hal | ].
  split; [ exact Hrun | ]. repeat split.
Qed.

Lemma add_p2p_appends_witness :
  ("isl" = "access" \/ "isl" = "isl") /\
  exists w',
    add_p2p default_args "s1" "s3" "isl" (built default_args (boot ∅ 0)) = (Ok tt, w') /\
    subnet_idx w' = 6 + 1.
Proof.
  split; [ now right | ].
  destruct (add_p2p_appends default_args "s1" "s3" "isl" (built default_args (boot ∅ 0)))
    as (cidr & a_ip & b_ip & w' & _ & Hrun & _ & _ & Hidx & _);
    [ now right | simpl; tauto | simpl; tauto | ].
  exists w'. split; [ exact Hrun | exact Hidx ].
Defined.

(** The agreement between [links] and the substrate holds when both are
    empty and is kept by [add_p2p]. *)
Theorem add_p2p_keeps_wired args (a b kind : string) w :
  wired args w ->
  kind = "access" \/ kind = "isl" ->
  In a node_names -> In b node_names ->
  exists w', add_p2p args a b kind w = (Ok tt, w') /\ wired args w'.
Proof.
  intros (Hidx & Hlen & Hall) Hk Ha Hb.
  destruct (add_p2p_runs args a b kind w Hk Ha Hb) as (cidr & a_ip & b_ip & Hal & Hrun).
  eexists. split; [ exact Hrun | ].
  unfold wired. simpl. split; [ | split ].
  - rewrite length_app. simpl. lia.
  - rewrite !length_app. simpl. lia.
  - intros k l Hl.
    destruct (decide (k < length (links w))%nat) as [Hlt | Hge].
    + rewrite lookup_app_l in Hl by exact Hlt.
      destruct (Hall k l Hl) as (H1 & H2 & st & H3).
      split; [ exact H1 | split; [ exact H2 | ] ].
      exists st. rewrite lookup_app_l by lia. exact H3.
    + rewrite lookup_app_r in Hl by lia.
      destruct (k - length (links w))%nat as [| n] eqn:E; [ | now destruct n ].
      injection Hl as <-. simpl.
      assert (k = length (links w)) as -> by lia.
      split; [ exact Hlen | split ].
      * rewrite <- Hidx. exact Hal.
      * exists up. rewrite lookup_app_r by lia.
        now replace (length (links w) - length (tclinks (net w)))%nat with 0%nat by lia.
Qed.

Lemma add_p2p_keeps_wired_witness :
  wired default_args (built default_args (boot ∅ 0)) /\
  exists w',
    add_p2p default_args "s1" "s3" "isl" (built default_args (boot ∅ 0)) = (Ok tt, w') /\
    wired default_args w'.
Proof.
  assert (Hw : wired default_args (built default_args (boot ∅ 0))).
  { split; [ reflexivity | split; [ reflexivity | ] ].
    intros k l Hl.
    do 6 (destruct k as [| k]; [ injection Hl as <-;
            (split; [ reflexivity | split; [ reflexivity | eexists; reflexivity ] ]) | ]).
    discriminate Hl. }
  split; [ exact Hw | ].
  apply add_p2p_keeps_wired; [ exact Hw | now right | simpl; tauto | simpl; tauto ].
Defined.

(** Under that agreement no two recorded links share a subnet: their CIDR
    texts differ and no host address of one is a host address of the
    other. *)
Theorem wired_links_disjoint args w (j k : nat) (l l' : link_rec) :
  wired args w ->
  links w !! j = Some l -> links w !! k = Some l' -> j <> k ->
  lk_cidr l <> lk_cidr l' /\
  lk_a_ip l <> lk_a_ip l' /\ lk_a_ip l <> lk_b_ip l' /\
  lk_b_ip l <> lk_a_ip l' /\ lk_b_ip l <> lk_b_ip l'.
Proof.
  intros (_ & _ & Hall) Hj Hk Hne.
  destruct (Hall j l Hj) as (_ & Hlj & _).
  destruct (Hall k l' Hk) as (_ & Hlk & _).
  unfold _alloc_p2p_subnet in Hlj, Hlk.
  injection Hlj as <- <- <-. injection Hlk as <- <- <-.
  assert (Hz : Z.of_nat j <> Z.of_nat k) by lia.
  assert (D : forall x y, 0 <= x < 4 -> 0 <= y < 4 ->
            dotted (octet3 (Z.of_nat j)) (octet4 (Z.of_nat j) + x)
            <> dotted (octet3 (Z.of_nat k)) (octet4 (Z.of_nat k) + y)).
  { intros x y Hx Hy E. apply dotted_inj in E as [E3 E4].
    apply Hz. exact (octets_determine_index _ _ x y Hx Hy E3 E4). }
  split.
  - intros E. apply cidr_inj in E as [E3 E4].
    apply Hz. apply (octets_determine_index _ _ 0 0); lia.
  - repeat split; apply D; lia.
Qed.

Lemma wired_links_disjoint_witness :
  let w := built default_args (boot ∅ 0) in
  exists l l',
    links w !! 2%nat = Some l /\ links w !! 3%nat = Some l' /\
    lk_cidr l <> lk_cidr l'.
Proof.
  cbv zeta. eexists _, _. split; [ reflexivity | split; [ reflexivity | ] ].
  eapply (wired_links_disjoint default_args (built default_args (boot ∅ 0)) 2 3);
    [ | reflexivity | reflexivity | lia ].
  split; [ reflexivity | split; [ reflexivity | ] ].
  intros k l Hl.
  do 6 (destruct k as [| k]; [ injection Hl as <-;
          (split; [ reflexivity | split; [ reflexivity | eexists; reflexivity ] ]) | ]).
  discriminate Hl.
Defined.

(** ** The two neighbour-linking passes *)

Lemma same_pair_spec (a b x y : string) :
  same_pair a b x y = true <-> same_ends a b x y.
Proof.
  unfold same_pair, same_ends. rewrite bool_decide_eq_true. split.
  - intros E.
    assert (Ha : a ∈ ({[x; y]} : gset string))
      by (rewrite <- E; apply elem_of_union_l; now apply elem_of_singleton).
    assert (Hb : b ∈ ({[x; y]} : gset string))
      by (rewrite <- E; apply elem_of_union_r; now apply elem_of_singleton).
    assert (Hx : x ∈ ({[a; b]} : gset string))
      by (rewrite E; apply elem_of_union_l; now apply elem_of_singleton).
    assert (Hy : y ∈ ({[a; b]} : gset string))
      by (rewrite E; apply elem_of_union_r; now apply elem_of_singleton).
    rewrite elem_of_union, !elem_of_singleton in Ha, Hb, Hx, Hy.
    destruct Ha, Hb, Hx, Hy; subst; tauto.
  - intros [[-> ->] | [-> ->]]; [ reflexivity | apply union_comm_L ].
Qed.

(** One pass over a list of links that skips some of them. *)
Lemma link_pass_runs wrapper_path udp_port (skip : link_rec -> bool) ls : forall w,
  (forall l, In l ls -> In (lk_a l) node_names /\ In (lk_b l) node_names) ->
  exists w',
    for_each ls (fun l => if skip l then ret tt
                          else link_both_ways wrapper_path udp_port l) w
    = (Ok tt, w') /\
    cmds w' = (cmds w ++ flat_map (two_cmds wrapper_path udp_port)
                                  (List.filter (fun l => negb (skip l)) ls))%list /\
    net w' = net w /\ links w' = links w /\ logs w' = logs w /\
    fs w' = fs w /\ procs w' = procs w.
Proof.
  induction ls as [| l ls IH]; intros w Hends.
  - exists w. simpl. rewrite app_nil_r. repeat split.
  - destruct (Hends l (or_introl eq_refl)) as [Ha Hb].
    simpl for_each. unfold bind at 1. simpl List.filter.
    destruct (skip l); simpl negb; cbv iota.
    + unfold ret at 1. apply IH. intros l' Hl'. apply Hends. now right.
    + unfold link_both_ways, cmd_on. unfold bind at 1. unfold bind at 1.
      rewrite (nodes_get_known _ _ Ha). unfold modify at 1.
      unfold bind at 1. rewrite (nodes_get_known _ _ Hb). unfold modify at 1.
      destruct (IH (add_cmd (lk_b l) (link_create wrapper_path (lk_b l) (lk_a_ip l) udp_port)
                      (add_cmd (lk_a l) (link_create wrapper_path (lk_a l) (lk_b_ip l) udp_port) w)))
        as (w' & Hrun & Hc & Hrest); [ intros l' Hl'; apply Hends; now right | ].
      exists w'. split; [ exact Hrun | ]. split; [ | exact Hrest ].
      rewrite Hc. simpl. rewrite <- !app_assoc. reflexivity.
Qed.

(** For any list of links between nodes of the run: the initial pass
    issues the two commands of every link that is not one of the two
    alternate access links, the handover those of every link that is one,
    both in the order of the list; so every link is linked in exactly one of
    the two passes.  A link counts as alternate in either orientation. *)
Theorem link_passes_partition args (wrapper_path : string) w :
  known_ends w ->
  (exists w1,
     initial_linking args wrapper_path w = (Ok tt, w1) /\
     cmds w1 = (cmds w ++ flat_map (two_cmds wrapper_path (args_udp_port args))
                  (List.filter (fun l => negb (alternate_access l)) (links w)))%list /\
     net w1 = net w /\ links w1 = links w /\ logs w1 = logs w) /\
  (exists w2,
     handover args wrapper_path w = (Ok tt, w2) /\
     cmds w2 = (cmds w ++ flat_map (two_cmds wrapper_path (args_udp_port args))
                  (List.filter alternate_access (links w)))%list /\
     links w2 = links w) /\
  (forall l, alternate_access l = true <->
             same_ends (lk_a l) (lk_b l) "g1" "s2"
             \/ same_ends (lk_a l) (lk_b l) "g2" "s2").
Proof.
  intros Hends. split; [ | split ].
  - unfold initial_linking, bind at 1, gets.
    destruct (link_pass_runs wrapper_path (args_udp_port args) alternate_access
                (links w) w Hends) as (w1 & Hrun & Hc & Hn & Hl & Hg & _).
    exists w1. repeat split; assumption.
  - unfold handover. unfold bind at 1, modify at 1.
    unfold bind at 1, configLinkStatus at 1, modify at 1.
    unfold bind at 1, configLinkStatus at 1, modify at 1.
    unfold bind at 1, configLinkStatus at 1, modify at 1.
    unfold bind at 1, configLinkStatus at 1, modify at 1.
    unfold bind at 1, gets.
    match goal with
    | |- context [for_each ?ls ?body ?w0] =>
        destruct (link_pass_runs wrapper_path (args_udp_port args)
                    (fun l => negb (alternate_access l)) ls w0)
          as (w2 & Hrun & Hc & _ & Hl & _)
    end; [ exact Hends | ].
    exists w2. split; [ exact Hrun | ]. split; [ | exact Hl ].
    rewrite Hc. simpl cmds. do 2 f_equal.
    apply filter_ext. intros l. now rewrite negb_involutive.
  - intros l. unfold alternate_access. rewrite orb_true_iff, !same_pair_spec. tauto.
Qed.

Lemma link_passes_partition_witness :
  let w := built default_args (boot ∅ 0) in
  known_ends w /\
  exists w1,
    initial_linking default_args "/tmp/ndn-mn/ndndctl" w = (Ok tt, w1) /\
    length (cmds w1) = 8%nat.
Proof.
  cbv zeta.
  assert (Hends : known_ends (built default_args (boot ∅ 0))).
  { intros l Hl. simpl in Hl.
    repeat (destruct Hl as [<- | Hl]; [ simpl; tauto | ]). destruct Hl. }
  split; [ exact Hends | ].
  destruct (link_passes_partition default_args "/tmp/ndn-mn/ndndctl" _ Hends)
    as [(w1 & Hrun & Hc & _) _].
  exists w1. split; [ exact Hrun | ]. rewrite Hc. reflexivity.
Defined.

(** ** Per-node paths *)

Lemma to_list_app s t :
  list_ascii_of_string (s +:+ t)
  = (list_ascii_of_string s ++ list_ascii_of_string t)%list.
Proof.
  induction s as [| a s IH]; [ reflexivity | ].
  rewrite append_cons. simpl. now rewrite IH.
Qed.

Lemma to_list_inj s t : list_ascii_of_string s = list_ascii_of_string t -> s = t.
Proof.
  intros E. rewrite <- (string_of_list_ascii_of_string s),
    <- (string_of_list_ascii_of_string t). now rewrite E.
Qed.

Lemma append_inv_tail s1 s2 t : s1 +:+ t = s2 +:+ t -> s1 = s2.
Proof.
  intros E. apply to_list_inj. apply (f_equal list_ascii_of_string) in E.
  rewrite !to_list_app in E. now apply app_inv_tail in E.
Qed.

Lemma path_join_relative a b : isabs b = false -> path_join a b = join_prefix a +:+ b.
Proof.
  intros Hb. unfold path_join, join_prefix. rewrite Hb.
  destruct (String.eqb a EmptyString || ends_with_slash a); [ reflexivity | ].
  now rewrite append_assoc.
Qed.

Lemma isabs_cons c r :
  isabs (String c r) = if ascii_dec "/" c then true else false.
Proof.
  unfold isabs.
  change (String.prefix "/" (String c r))
    with (match ascii_dec "/" c with
          | left _ => String.prefix EmptyString r
          | right _ => false
          end).
  destruct (ascii_dec "/" c); [ now destruct r | reflexivity ].
Qed.

Lemma isabs_append n suffix :
  isabs n = false -> isabs suffix = false -> isabs (n +:+ suffix) = false.
Proof.
  intros Hn Hs. destruct n as [| c n]; [ exact Hs | ].
  rewrite append_cons. rewrite isabs_cons in *. exact Hn.
Qed.

(** Unequal suffixes of unequal last character keep two texts apart. *)
Lemma append_last_differs s1 s2 t1 t2 c1 c2 :
  c1 <> c2 -> s1 +:+ t1 +:+ String c1 EmptyString
              <> s2 +:+ t2 +:+ String c2 EmptyString.
Proof.
  intros Hc E. apply (f_equal list_ascii_of_string) in E.
  rewrite !to_list_app in E. simpl in E. rewrite !app_assoc in E.
  apply app_inj_tail in E as [_ E]. congruence.
Qed.


(** Nodes never share a file: for any state directory, two relative node
    names have the same socket path only if they are the same name, likewise
    for the configuration and the log path, and no socket, configuration and
    log path of any two nodes coincide. *)
Theorem node_paths_distinct (state_dir n1 n2 : string) :
  isabs n1 = false -> isabs n2 = false ->
  (sock_of state_dir n1 = sock_of state_dir n2 -> n1 = n2) /\
  (conf_of state_dir n1 = conf_of state_dir n2 -> n1 = n2) /\
  (log_of state_dir n1 = log_of state_dir n2 -> n1 = n2) /\
  sock_of state_dir n1 <> conf_of state_dir n2 /\
  sock_of state_dir n1 <> log_of state_dir n2 /\
  conf_of state_dir n1 <> log_of state_dir n2.
Proof.
  intros H1 H2. unfold sock_of, conf_of, log_of.
  rewrite !path_join_relative by (apply isabs_append; [ assumption | reflexivity ]).
  repeat split.
  - intros E. apply (inj (String.app _)) in E. now apply append_inv_tail in E.
  - intros E. apply (inj (String.app _)) in E. now apply append_inv_tail in E.
  - intros E. apply (inj (String.app _)) in E. now apply append_inv_tail in E.
  - intros E. apply (inj (String.app _)) in E.
    apply (append_last_differs n1 n2 ".soc" ".ym" "k" "l"); [ discriminate | exact E ].
  - intros E. apply (inj (String.app _)) in E.
    apply (append_last_differs n1 n2 ".soc" ".lo" "k" "g"); [ discriminate | exact E ].
  - intros E. apply (inj (String.app _)) in E.
    apply (append_last_differs n1 n2 ".ym" ".lo" "l" "g"); [ discriminate | exact E ].
Qed.

Lemma node_paths_distinct_witness :
  (isabs "g1" = false /\ isabs "s1" = false) /\
  sock_of "/tmp/ndn-mn" "g1" <> conf_of "/tmp/ndn-mn" "s1".
Proof.
  split; [ split; reflexivity | ].
  now destruct (node_paths_distinct "/tmp/ndn-mn" "g1" "s1") as (_ & _ & _ & H & _).
Defined.

(** ** Starting the daemons *)








(** ** Readiness is never fatal *)




(** ** Teardown *)




(** ** How a run ends *)







(** ** What a successful pre-flight leaves *)



